(** * Aggregate lowering, map lowering and error aggregation of the compiler

    A shallow embedding of [compiler/calls.go], of the map lowering file of
    the [compiler] package and of [builder/error.go], with the properties
    of the calling convention and of the map key classification proved
    over it. *)

From Stdlib Require Import ZArith Lia String List Bool.
From Stdlib Require Strings.Byte.
From stdpp Require Import base option list strings gmap.

Set Warnings "-register-all".
Local Open Scope string_scope.
Local Open Scope list_scope.

(** ** Fallible code

    A Go function that may [panic] returns a [result]: the value, or the
    message of the panic. *)

Inductive result (A : Type) : Type :=
| Ok (a : A)
| Panic (msg : string).
Arguments Ok {A} a.
Arguments Panic {A} msg.

Definition rbind {A B} (r : result A) (k : A -> result B) : result B :=
  match r with
  | Ok a => k a
  | Panic msg => Panic msg
  end.

(** The message of the Go runtime for [s[0]] on an empty slice. *)
Definition indexOutOfRange : string :=
  "runtime error: index out of range [0] with length 0".

(** The message of the Go runtime for [s[0], s[1:]] on an empty slice. *)
Definition sliceBoundsOutOfRange : string :=
  "runtime error: slice bounds out of range [1:0]".

(** ** The LLVM data the lowering works on *)

Module llvm.

(** [llvm.TypeKind], the kinds the model distinguishes. *)
Inductive TypeKind : Set :=
| VoidTypeKind
| FloatTypeKind
| DoubleTypeKind
| IntegerTypeKind
| FunctionTypeKind
| StructTypeKind
| ArrayTypeKind
| PointerTypeKind.

(** [llvm.Type]: a struct is the ordered list of its element types. *)
Inductive Type_ : Set :=
| VoidType
| FloatType
| DoubleType
| IntegerType (bits : N)
| PointerType (elem : Type_)
| ArrayType (elem : Type_) (len : N)
| FunctionType (ret : Type_) (params : list Type_)
| StructType (elems : list Type_).

Definition TypeKind_of (t : Type_) : TypeKind :=
  match t with
  | VoidType => VoidTypeKind
  | FloatType => FloatTypeKind
  | DoubleType => DoubleTypeKind
  | IntegerType _ => IntegerTypeKind
  | PointerType _ => PointerTypeKind
  | ArrayType _ _ => ArrayTypeKind
  | FunctionType _ _ => FunctionTypeKind
  | StructType _ => StructTypeKind
  end.

(** [t.StructElementTypes()] and [t.StructElementTypesCount()]. *)
Definition StructElementTypes (t : Type_) : list Type_ :=
  match t with
  | StructType elems => elems
  | _ => []
  end.

Definition StructElementTypesCount (t : Type_) : nat :=
  length (StructElementTypes t).

(** Where the datum of an elementary value comes from: [undef], the zero
    constant, the allocation size of a type on the target, the global
    symbol [name], or the component at [path] of the result of the
    instruction numbered [id]. *)
Inductive Datum : Set :=
| DUndef
| DZero
| DSizeOf (t : Type_)
| DGlobal (name : string)
| DInst (id : N) (path : list nat).

(** [llvm.Value], by what it denotes.  A value of a struct type is the list
    of its field values, so that [extractvalue] is a projection and
    [insertvalue] a functional update; a value of any other type is an
    elementary datum (arrays are never split by this code). *)
Inductive Value : Set :=
| VVoid
| VFloat (d : Datum)
| VDouble (d : Datum)
| VInt (bits : N) (d : Datum)
| VPointer (elem : Type_) (d : Datum)
| VArray (elem : Type_) (len : N) (d : Datum)
| VFunction (ret : Type_) (params : list Type_) (d : Datum)
| VStruct (fields : list Value).

(** [v.Type()]. *)
Fixpoint typeOf (v : Value) : Type_ :=
  match v with
  | VVoid => VoidType
  | VFloat _ => FloatType
  | VDouble _ => DoubleType
  | VInt bits _ => IntegerType bits
  | VPointer elem _ => PointerType elem
  | VArray elem len _ => ArrayType elem len
  | VFunction ret params _ => FunctionType ret params
  | VStruct fields => StructType (map typeOf fields)
  end.

(** The value of type [t] whose elementary component at [path] is
    [src path]. *)
Fixpoint valueOf (t : Type_) (src : list nat -> Datum) : Value :=
  match t with
  | VoidType => VVoid
  | FloatType => VFloat (src [])
  | DoubleType => VDouble (src [])
  | IntegerType bits => VInt bits (src [])
  | PointerType elem => VPointer elem (src [])
  | ArrayType elem len => VArray elem len (src [])
  | FunctionType ret params => VFunction ret params (src [])
  | StructType elems =>
      VStruct
        ((fix fields (i : nat) (ts : list Type_) : list Value :=
            match ts with
            | [] => []
            | t' :: ts' =>
                valueOf t' (fun path => src (i :: path)) :: fields (S i) ts'
            end) 0%nat elems)
  end.

(** [llvm.ConstNull(t)], [llvm.Undef(t)] and [llvm.ConstPointerNull(t)]. *)
Definition ConstNull (t : Type_) : Value := valueOf t (fun _ => DZero).
Definition Undef (t : Type_) : Value := valueOf t (fun _ => DUndef).
Definition ConstPointerNull (t : Type_) : Value := valueOf t (fun _ => DZero).

(** The result of the instruction numbered [id], of type [t]. *)
Definition instResult (id : N) (t : Type_) : Value := valueOf t (DInst id).

(** [CreateExtractValue(agg, i, "")]: the field [i] of a struct value.  The
    code extracts only at the indices of the struct's element types.  The
    [extractvalue] is modelled by the value it yields; the instruction a
    builder appends for it is not recorded among [instrs] below. *)
Definition CreateExtractValue (agg : Value) (i : nat) : Value :=
  match agg with
  | VStruct fields => nth i fields agg
  | _ => agg
  end.

(** [CreateInsertValue(agg, elt, i, "")]: [agg] with the field [i] replaced
    by [elt], an element of the type of that field.  As for [extractvalue],
    the [insertvalue] is modelled by the value it yields and not recorded
    among [instrs]. *)
Definition CreateInsertValue (agg elt : Value) (i : nat) : Value :=
  match agg with
  | VStruct fields => VStruct (<[i := elt]> fields)
  | _ => agg
  end.

(** The instructions of an [llvm.Builder] that are recorded: calls, slots,
    stores, loads and ends of lifetimes.  The [extractvalue] and
    [insertvalue] instructions that split and rebuild struct values are
    not: the recorded instructions are a subsequence of those emitted. *)
Inductive Instr : Set :=
| ICall (fn : Value) (args : list Value) (name : string)
| IAlloca (t : Type_) (name : string)
| IStore (v ptr : Value)
| ILoad (ptr : Value) (name : string)
| ILifetimeEnd (ptr size : Value).

(** [llvm.Builder]: the instructions recorded so far, in order, and the
    number of the next instruction. *)
Record Builder : Set := mkBuilder {
  instrs : list Instr;
  nextId : N
}.

Definition emit (i : Instr) (b : Builder) : Builder :=
  mkBuilder (instrs b ++ [i]) (N.succ (nextId b)).

(** The return type of the function [fn] points to. *)
Definition returnType (fn : Value) : Type_ :=
  match typeOf fn with
  | PointerType (FunctionType ret _) => ret
  | FunctionType ret _ => ret
  | _ => VoidType
  end.

(** [b.CreateCall(fn, args, name)]. *)
Definition CreateCall (fn : Value) (args : list Value) (name : string)
    (b : Builder) : Value * Builder :=
  (instResult (nextId b) (returnType fn), emit (ICall fn args name) b).

(** [b.CreateStore(v, ptr)]. *)
Definition CreateStore (v ptr : Value) (b : Builder) : Builder :=
  emit (IStore v ptr) b.

(** [b.CreateLoad(ptr, name)]. *)
Definition CreateLoad (ptr : Value) (name : string) (b : Builder)
    : Value * Builder :=
  (instResult (nextId b)
     match typeOf ptr with PointerType elem => elem | _ => VoidType end,
   emit (ILoad ptr name) b).

End llvm.
Import llvm.

(** ** compiler/calls.go *)

(** The maximum number of arguments that can be expanded from a single
    struct. *)
Definition MaxFieldsPerParam : nat := 3.

(** [c.i8ptrType] and [b.i8ptrType]: the type [i8*]. *)
Definition i8ptrType : Type_ := PointerType (IntegerType 8).

(** Try to flatten a struct type to a list of types.  The loop over
    [t.StructElementTypes()] is the [fold_left], [fields] its accumulator. *)
Fixpoint flattenAggregateType (t : Type_) : list Type_ :=
  match t with
  | StructType elems =>
      fold_left
        (fun fields subfield => fields ++ flattenAggregateType subfield)
        elems []
  | _ => [t]
  end.

(** Expand an argument type to a list that can be used in a function call
    parameter list. *)
Definition expandFormalParamType (t : Type_) : list Type_ :=
  match TypeKind_of t with
  | StructTypeKind =>
      let fields := flattenAggregateType t in
      if (length fields <=? MaxFieldsPerParam)%nat then fields else [t]
  | _ => [t]
  end.

(** 64-bit unsigned arithmetic. *)
Definition wrap64 (z : Z) : Z := (z mod 2 ^ 64)%Z.

Section Offsets.

(** [c.targetData.ElementOffset(t, fieldIndex)], the layout oracle of the
    target; the result is read as a [uint64]. *)
Variable ElementOffset : Type_ -> nat -> Z.

(** Return the offsets from the start of the object if this object type
    were flattened.  [suboffsets[i] += offset] is the [map]. *)
Fixpoint flattenAggregateTypeOffsets (t : Type_) : list Z :=
  match t with
  | StructType elems =>
      (fix loop (fieldIndex : nat) (rest : list Type_) (fields : list Z)
         : list Z :=
         match rest with
         | [] => fields
         | field :: rest' =>
             let suboffsets := flattenAggregateTypeOffsets field in
             let offset := wrap64 (ElementOffset t fieldIndex) in
             let suboffsets := map (fun o => wrap64 (o + offset)) suboffsets in
             loop (S fieldIndex) rest' (fields ++ suboffsets)
         end) 0%nat elems []
  | _ => [0%Z]
  end.

(** Expand an argument type to a list of offsets from the start of the
    object. *)
Definition expandFormalParamOffsets (t : Type_) : list Z :=
  match TypeKind_of t with
  | StructTypeKind =>
      let fields := flattenAggregateTypeOffsets t in
      if (length fields <=? MaxFieldsPerParam)%nat then fields else [0%Z]
  | _ => [0%Z]
  end.

End Offsets.

(** The methods of [*Compiler]. *)
Module Compiler.

(** [ir.Function], as far as [createRuntimeCall] reads it: [fn.LLVMFn]
    ([None] when [IsNil()]) and [fn.IsExported()]. *)
Record Function : Set := mkFunction {
  LLVMFn : option Value;
  IsExported : bool
}.

(** A member of an [ssa.Package]: a function, or anything else (a type, a
    global, a constant), on which the type assertion to [ssa.Function]
    panics. *)
Inductive Member : Set :=
| MFunction (fn : Function)
| MOther.

(** The compiler: the members of the imported package [runtime] and the
    instruction builder [c.builder]. *)
Record state : Type := mkState {
  runtimeMembers : gmap string Member;
  builder : Builder
}.

(** Break down a struct into its elementary types for argument passing.
    The loop runs over the indices [i] of the struct's element types;
    [subfield] is the field [i] of [v] (see [flattenAggregate_loop]). *)
Fixpoint flattenAggregate (v : Value) : list Value :=
  match v with
  | VStruct elems =>
      (fix loop (i : nat) (rest : list Value) (fields : list Value)
         : list Value :=
         match rest with
         | [] => fields
         | subfield :: rest' =>
             let subfields := flattenAggregate subfield in
             loop (S i) rest' (fields ++ subfields)
         end) 0%nat elems []
  | _ => [v]
  end.

(** Equivalent of [expandFormalParamType] for parameter values. *)
Definition expandFormalParam (v : Value) : result (list Value) :=
  match TypeKind_of (typeOf v) with
  | StructTypeKind =>
      let fieldTypes := flattenAggregateType (typeOf v) in
      if (length fieldTypes <=? MaxFieldsPerParam)%nat then
        let fields := flattenAggregate v in
        if negb (length fields =? length fieldTypes)%nat then
          Panic "type and value param lowering don't match"
        else Ok fields
      else Ok [v]
  | _ => Ok [v]
  end.

(** The loop of [createCall]: every argument expanded, in order. *)
Fixpoint expandArgs (args : list Value) (expanded : list Value)
    : result (list Value) :=
  match args with
  | [] => Ok expanded
  | arg :: args' =>
      rbind (expandFormalParam arg) (fun fragments =>
        expandArgs args' (expanded ++ fragments))
  end.

(** Create a call to the given function with the arguments possibly
    expanded. *)
Definition createCall (fn : Value) (args : list Value) (name : string)
    (c : state) : result (Value * state) :=
  rbind (expandArgs args []) (fun expanded =>
    let '(call, b') := CreateCall fn expanded name (builder c) in
    Ok (call, mkState (runtimeMembers c) b')).

(** Shortcut: create a call to [runtime.<fnName>] with the given
    arguments. *)
Definition createRuntimeCall (fnName : string) (args : list Value)
    (name : string) (c : state) : result (Value * state) :=
  match runtimeMembers c !! fnName with
  | None => Panic ("trying to call runtime." ++ fnName)%string
  | Some MOther => Panic "interface conversion: not *ssa.Function"
  | Some (MFunction fn) =>
      match LLVMFn fn with
      | None =>
          Panic ("function " ++ fnName ++ " does not appear in LLVM IR")%string
      | Some llvmFn =>
          let args :=
            if negb (IsExported fn) then
              (args ++ [Undef i8ptrType]) ++ [ConstPointerNull i8ptrType]
            else args in
          createCall llvmFn args name c
      end
  end.

(** Returns (value, remainingFields).  Used by [collapseFormalParam]. *)
Fixpoint collapseFormalParamInternal (t : Type_) (fields : list Value)
    : result (Value * list Value) :=
  match t with
  | StructType elems =>
      if (length (flattenAggregateType t) <=? MaxFieldsPerParam)%nat then
        (fix loop (i : nat) (subtyps : list Type_) (value : Value)
             (fields : list Value) : result (Value * list Value) :=
           match subtyps with
           | [] => Ok (value, fields)
           | subtyp :: subtyps' =>
               rbind (collapseFormalParamInternal subtyp fields)
                 (fun '(structField, remaining) =>
                    loop (S i) subtyps'
                      (CreateInsertValue value structField i) remaining)
           end) 0%nat elems (ConstNull t) fields
      else
        match fields with
        | [] => Panic sliceBoundsOutOfRange
        | field :: remaining => Ok (field, remaining)
        end
  | _ =>
      match fields with
      | [] => Panic sliceBoundsOutOfRange
      | field :: remaining => Ok (field, remaining)
      end
  end.

(** Collapse a list of fields into its original value. *)
Definition collapseFormalParam (t : Type_) (fields : list Value)
    : result Value :=
  rbind (collapseFormalParamInternal t fields) (fun '(param, remaining) =>
    if negb (length remaining =? 0)%nat then
      Panic "failed to expand back all fields"
    else Ok param).

End Compiler.

(** ** The Go types the map lowering inspects ([go/types]) *)

Module types.

(** [types.BasicKind]. *)
Inductive BasicKind : Set :=
| Invalid
| Bool | Int | Int8 | Int16 | Int32 | Int64
| Uint | Uint8 | Uint16 | Uint32 | Uint64 | Uintptr
| Float32 | Float64 | Complex64 | Complex128
| String | UnsafePointer
| UntypedBool | UntypedInt | UntypedRune | UntypedFloat | UntypedComplex
| UntypedString | UntypedNil.

(** [types.BasicInfo], a set of flags. *)
Definition IsBoolean : Z := Z.shiftl 1 0.
Definition IsInteger : Z := Z.shiftl 1 1.
Definition IsUnsigned : Z := Z.shiftl 1 2.
Definition IsFloat : Z := Z.shiftl 1 3.
Definition IsComplex : Z := Z.shiftl 1 4.
Definition IsString : Z := Z.shiftl 1 5.
Definition IsUntyped : Z := Z.shiftl 1 6.

(** [Info()] of a [Basic] type, the table of the universe scope. *)
Definition Info (k : BasicKind) : Z :=
  match k with
  | Invalid => 0
  | Bool => IsBoolean
  | Int | Int8 | Int16 | Int32 | Int64 => IsInteger
  | Uint | Uint8 | Uint16 | Uint32 | Uint64 | Uintptr =>
      Z.lor IsInteger IsUnsigned
  | Float32 | Float64 => IsFloat
  | Complex64 | Complex128 => IsComplex
  | String => IsString
  | UnsafePointer => 0
  | UntypedBool => Z.lor IsBoolean IsUntyped
  | UntypedInt | UntypedRune => Z.lor IsInteger IsUntyped
  | UntypedFloat => Z.lor IsFloat IsUntyped
  | UntypedComplex => Z.lor IsComplex IsUntyped
  | UntypedString => Z.lor IsString IsUntyped
  | UntypedNil => IsUntyped
  end.

(** [types.Type].  A struct is the list of its fields (name and type); a
    named type holds its underlying type. *)
Inductive Type_ : Set :=
| Basic (kind : BasicKind)
| Pointer (elem : Type_)
| Struct (fields : list (string * Type_))
| Array (elem : Type_) (len : Z)
| Slice (elem : Type_)
| Map (key elem : Type_)
| Chan (elem : Type_)
| Interface (methods : list string)
| Signature (params results : list Type_)
| Named (name : string) (underlying : Type_).

(** [t.Underlying()]: the underlying type of a named type, the type itself
    otherwise. *)
Definition Underlying (t : Type_) : Type_ :=
  match t with
  | Named _ underlying => underlying
  | _ => t
  end.

End types.

(** [token.Pos]. *)
Definition Pos : Set := Z.

(** ** The map lowering of the [compiler] package *)

(** 32-bit unsigned arithmetic. *)
Definition wrap32 (z : Z) : Z := (z mod 2 ^ 32)%Z.

(** Get FNV-1a hash of this string.  [data] is a [[]byte], the result a
    [uint32]; the loop over [data] is the [fold_left], [result] its
    accumulator. *)
Definition hashmapHash (data : list Byte.byte) : Z :=
  fold_left
    (fun result c =>
       let result := Z.lxor result (Z.of_N (Byte.to_N c)) in
       wrap32 (result * 16777619))
    data 2166136261%Z.

(** Get the topmost 8 bits of the hash, without using a special value
    (like 0).  [hash] is a [uint32], the result a [uint8]. *)
Definition hashmapTopHash (hash : Z) : Z :=
  let tophash := (Z.shiftr hash 24 mod 2 ^ 8)%Z in
  if (tophash <? 1)%Z then ((tophash + 1) mod 2 ^ 8)%Z else tophash.

(** Returns true if this key type does not contain strings, interfaces
    etc., so can be compared with [runtime.memequal]. *)
Fixpoint hashmapIsBinaryKey (keyType : types.Type_) : bool :=
  match keyType with
  | types.Basic kind =>
      negb (Z.land (types.Info kind)
              (Z.lor types.IsBoolean types.IsInteger) =? 0)%Z
  | types.Pointer _ => true
  | types.Struct fields =>
      (fix loop (rest : list (string * types.Type_)) : bool :=
         match rest with
         | [] => true
         | field :: rest' =>
             let fieldType := types.Underlying (snd field) in
             if negb (hashmapIsBinaryKey fieldType) then false
             else loop rest'
         end) fields
  | types.Array elem _ => hashmapIsBinaryKey elem
  | types.Named _ underlying => hashmapIsBinaryKey underlying
  | _ => false
  end.

(** The test of the three map operations for a string key: [keyType] is a
    [Basic] type and [t.Info()&types.IsString != 0]. *)
Definition isBasicString (keyType : types.Type_) : bool :=
  match keyType with
  | types.Basic kind => negb (Z.land (types.Info kind) types.IsString =? 0)%Z
  | _ => false
  end.

(** The methods of [*builder]. *)
Module builder.

(** A diagnostic ([types.Error]): a source position and a message. *)
Record Diagnostic : Set := mkDiagnostic {
  DiagPos : Pos;
  Msg : string
}.

(** The function builder: the functions of the module [b.mod] by name, the
    embedded [llvm.Builder], and the diagnostics recorded so far. *)
Record state : Type := mkState {
  mod_ : gmap string Value;
  Builder_ : Builder;
  diagnostics : list Diagnostic
}.

(** Code that reads and updates the builder and may panic. *)
Definition M (A : Type) : Type := state -> result (A * state).

Definition ret {A} (a : A) : M A := fun b => Ok (a, b).

Definition bind {A B} (c : M A) (k : A -> M B) : M B :=
  fun b => rbind (c b) (fun '(a, b') => k a b').

Definition panic {A} (msg : string) : M A := fun _ => Panic msg.

(** Run a builder instruction. *)
Definition instr {A} (f : Builder -> A * Builder) : M A :=
  fun b =>
    let '(a, bld) := f (Builder_ b) in
    Ok (a, mkState (mod_ b) bld (diagnostics b)).

Notation "x <- c ;; k" := (bind c (fun x => k))
  (at level 100, c at next level, right associativity).
Notation "c ;;; k" := (bind c (fun _ => k))
  (at level 100, right associativity).

(** [flattenAggregate] breaks down a struct into its elementary values for
    argument passing.  It is the value equivalent of
    [flattenAggregateType]. *)
Fixpoint flattenAggregate (v : Value) : list Value :=
  match v with
  | VStruct elems =>
      (fix loop (i : nat) (rest : list Value) (fields : list Value)
         : list Value :=
         match rest with
         | [] => fields
         | subfield :: rest' =>
             let subfields := flattenAggregate subfield in
             loop (S i) rest' (fields ++ subfields)
         end) 0%nat elems []
  | _ => [v]
  end.

(** [expandFormalParam] splits a formal param value into pieces, so it can
    be passed directly as part of a function call. *)
Definition expandFormalParam (v : Value) : result (list Value) :=
  match TypeKind_of (typeOf v) with
  | StructTypeKind =>
      let fieldTypes := flattenAggregateType (typeOf v) in
      if (length fieldTypes <=? MaxFieldsPerParam)%nat then
        let fields := flattenAggregate v in
        if negb (length fields =? length fieldTypes)%nat then
          Panic "type and value param lowering don't match"
        else Ok fields
      else Ok [v]
  | _ => Ok [v]
  end.

(** The loop of [createCall]: every argument expanded, in order. *)
Fixpoint expandArgs (args : list Value) (expanded : list Value)
    : result (list Value) :=
  match args with
  | [] => Ok expanded
  | arg :: args' =>
      rbind (expandFormalParam arg) (fun fragments =>
        expandArgs args' (expanded ++ fragments))
  end.

(** [createCall] creates a call to the given function with the arguments
    possibly expanded. *)
Definition createCall (fn : Value) (args : list Value) (name : string)
    : M Value :=
  fun b =>
    rbind (expandArgs args []) (fun expanded =>
      instr (CreateCall fn expanded name) b).

(** [createRuntimeCall] creates a new call to [runtime.<fnName>] with the
    given arguments. *)
Definition createRuntimeCall (fnName : string) (args : list Value)
    (name : string) : M Value :=
  fun b =>
    let fullName := ("runtime." ++ fnName)%string in
    match mod_ b !! fullName with
    | None =>
        Panic ("trying to call non-existing function: " ++ fullName)%string
    | Some fn =>
        let args := args ++ [Undef i8ptrType] in
        let args := args ++ [ConstPointerNull i8ptrType] in
        createCall fn args name b
    end.

(** Modelled from the spec: [createTemporaryAlloca] is not in the files at
    hand.  It allocates scratch space sized for [t] and returns the slot,
    a pointer to it and its size. *)
Definition createTemporaryAlloca (t : Type_) (name : string)
    : M (Value * Value * Value) :=
  instr (fun bld =>
    let id := nextId bld in
    ((instResult id (PointerType t),
      VPointer (IntegerType 8) (DInst id []),
      VInt 64 (DSizeOf t)),
     emit (IAlloca t name) bld)).

(** Modelled from the spec: [emitLifetimeEnd] is not in the files at hand.
    It ends the lifetime of the scratch slot at [ptr]. *)
Definition emitLifetimeEnd (ptr size : Value) : M unit :=
  instr (fun bld => (tt, emit (ILifetimeEnd ptr size) bld)).

(** Modelled from the spec: [makeError] is not in the files at hand.  It
    makes the diagnostic of a source position and a message. *)
Definition makeError (pos : Pos) (msg : string) : Diagnostic :=
  mkDiagnostic pos msg.

(** Modelled from the spec: [addError] is not in the files at hand.  It
    records the diagnostic, and lowering continues. *)
Definition addError (pos : Pos) (msg : string) : M unit :=
  fun b =>
    Ok (tt, mkState (mod_ b) (Builder_ b)
              (diagnostics b ++ [makeError pos msg])).

Definition unsupportedKey : string :=
  "only strings, bools, ints, pointers or structs of bools/ints are supported as map keys, but got: ".

Section MapOperations.

(** [b.getLLVMType], the LLVM type of a Go type, and [keyType.String()]. *)
Variable getLLVMType : types.Type_ -> Type_.
Variable TypeString : types.Type_ -> string.

(** [createMapLookup] returns the value in a map.  The result is the pair
    of the Go function: the value ([None] for [llvm.Value{}]) and the
    error ([None] for [nil]). *)
Definition createMapLookup (keyType valueType : types.Type_)
    (m key : Value) (commaOk : bool) (pos : Pos)
    : M (option Value * option Diagnostic) :=
  let llvmValueType := getLLVMType valueType in
  slot <- createTemporaryAlloca llvmValueType "hashmap.value" ;;
  let '(mapValueAlloca, mapValuePtr, mapValueSize) := slot in
  let finish (commaOkValue : Value) : M (option Value * option Diagnostic) :=
    mapValue <- instr (CreateLoad mapValueAlloca "") ;;
    emitLifetimeEnd mapValuePtr mapValueSize ;;;
    if commaOk then
      let tuple := Undef (StructType [llvmValueType; IntegerType 1]) in
      let tuple := CreateInsertValue tuple mapValue 0 in
      let tuple := CreateInsertValue tuple commaOkValue 1 in
      ret (Some tuple, None)
    else ret (Some mapValue, None) in
  if isBasicString keyType then
    let params := [m; key; mapValuePtr] in
    commaOkValue <- createRuntimeCall "hashmapStringGet" params "" ;;
    finish commaOkValue
  else if hashmapIsBinaryKey keyType then
    slot <- createTemporaryAlloca (typeOf key) "hashmap.key" ;;
    let '(mapKeyAlloca, mapKeyPtr, mapKeySize) := slot in
    instr (fun bld => (tt, CreateStore key mapKeyAlloca bld)) ;;;
    let params := [m; mapKeyPtr; mapValuePtr] in
    commaOkValue <- createRuntimeCall "hashmapBinaryGet" params "" ;;
    emitLifetimeEnd mapKeyPtr mapKeySize ;;;
    finish commaOkValue
  else
    ret (None,
         Some (makeError pos (unsupportedKey ++ TypeString keyType)%string)).

(** [createMapUpdate] updates a map key to a given value, by creating an
    appropriate runtime call. *)
Definition createMapUpdate (keyType : types.Type_) (m key value : Value)
    (pos : Pos) : M unit :=
  slot <- createTemporaryAlloca (typeOf value) "hashmap.value" ;;
  let '(valueAlloca, valuePtr, valueSize) := slot in
  instr (fun bld => (tt, CreateStore value valueAlloca bld)) ;;;
  let keyType := types.Underlying keyType in
  (if isBasicString keyType then
     let params := [m; key; valuePtr] in
     createRuntimeCall "hashmapStringSet" params "" ;;; ret tt
   else if hashmapIsBinaryKey keyType then
     slot <- createTemporaryAlloca (typeOf key) "hashmap.key" ;;
     let '(keyAlloca, keyPtr, keySize) := slot in
     instr (fun bld => (tt, CreateStore key keyAlloca bld)) ;;;
     let params := [m; keyPtr; valuePtr] in
     createRuntimeCall "hashmapBinarySet" params "" ;;;
     emitLifetimeEnd keyPtr keySize
   else
     addError pos (unsupportedKey ++ TypeString keyType)%string) ;;;
  emitLifetimeEnd valuePtr valueSize.

(** [createMapDelete] deletes a key from a map by calling the appropriate
    runtime function.  The result is the error, [None] for [nil]. *)
Definition createMapDelete (keyType : types.Type_) (m key : Value)
    (pos : Pos) : M (option Diagnostic) :=
  let keyType := types.Underlying keyType in
  if isBasicString keyType then
    let params := [m; key] in
    createRuntimeCall "hashmapStringDelete" params "" ;;;
    ret None
  else if hashmapIsBinaryKey keyType then
    slot <- createTemporaryAlloca (typeOf key) "hashmap.key" ;;
    let '(keyAlloca, keyPtr, keySize) := slot in
    instr (fun bld => (tt, CreateStore key keyAlloca bld)) ;;;
    let params := [m; keyPtr] in
    createRuntimeCall "hashmapBinaryDelete" params "" ;;;
    emitLifetimeEnd keyPtr keySize ;;;
    ret None
  else
    ret (Some (makeError pos (unsupportedKey ++ TypeString keyType)%string)).

End MapOperations.

End builder.

(** ** builder/error.go *)

(** A Go [error]: a [*MultiError], a [*commandError], or any other error,
    given by its message. *)
Inductive error : Set :=
| MultiError (Errs : list error)
| commandError (Msg File : string) (Err : error)
| otherError (msg : string).

(** The method [Error()]; on a [*MultiError] it is the first error's
    message, and indexing an empty [Errs] panics. *)
Fixpoint Error (e : error) : result string :=
  match e with
  | MultiError Errs =>
      match Errs with
      | [] => Panic indexOutOfRange
      | first :: _ => Error first
      end
  | commandError Msg File Err =>
      rbind (Error Err) (fun s => Ok (Msg ++ " " ++ File ++ ": " ++ s)%string)
  | otherError msg => Ok msg
  end.

(** [newMultiError] returns a [*MultiError] if there is more than one
    error, or returns that error directly when there is only one. *)
Definition newMultiError (errs : list error) : result error :=
  if (1 <? length errs)%nat then Ok (MultiError errs)
  else
    match errs with
    | [] => Panic indexOutOfRange
    | first :: _ => Ok first
    end.

(** * Definitions for the properties *)

(** ** Induction over nested structs *)

Section StructInduction.

Variable P : Type_ -> Prop.
Hypothesis P_elementary : forall t, TypeKind_of t <> StructTypeKind -> P t.
Hypothesis P_struct : forall elems, Forall P elems -> P (StructType elems).

Fixpoint Type_struct_ind (t : Type_) : P t :=
  match t with
  | StructType elems =>
      P_struct elems
        ((fix all (ts : list Type_) : Forall P ts :=
            match ts with
            | [] => @List.Forall_nil _ P
            | t' :: ts' =>
                @List.Forall_cons _ P t' ts' (Type_struct_ind t') (all ts')
            end) elems)
  | VoidType => P_elementary VoidType ltac:(discriminate)
  | FloatType => P_elementary FloatType ltac:(discriminate)
  | DoubleType => P_elementary DoubleType ltac:(discriminate)
  | IntegerType bits => P_elementary (IntegerType bits) ltac:(discriminate)
  | PointerType elem => P_elementary (PointerType elem) ltac:(discriminate)
  | ArrayType elem len => P_elementary (ArrayType elem len) ltac:(discriminate)
  | FunctionType r ps => P_elementary (FunctionType r ps) ltac:(discriminate)
  end.

End StructInduction.

Section ValueInduction.

Variable P : Value -> Prop.
Hypothesis P_elementary :
  forall v, TypeKind_of (typeOf v) <> StructTypeKind -> P v.
Hypothesis P_struct : forall fields, Forall P fields -> P (VStruct fields).

Fixpoint Value_struct_ind (v : Value) : P v :=
  match v with
  | VStruct fields =>
      P_struct fields
        ((fix all (vs : list Value) : Forall P vs :=
            match vs with
            | [] => @List.Forall_nil _ P
            | v' :: vs' =>
                @List.Forall_cons _ P v' vs' (Value_struct_ind v') (all vs')
            end) fields)
  | VVoid => P_elementary VVoid ltac:(discriminate)
  | VFloat d => P_elementary (VFloat d) ltac:(discriminate)
  | VDouble d => P_elementary (VDouble d) ltac:(discriminate)
  | VInt bits d => P_elementary (VInt bits d) ltac:(discriminate)
  | VPointer elem d => P_elementary (VPointer elem d) ltac:(discriminate)
  | VArray elem len d => P_elementary (VArray elem len d) ltac:(discriminate)
  | VFunction r ps d => P_elementary (VFunction r ps d) ltac:(discriminate)
  end.

End ValueInduction.

(** ** The loops, by name *)

(** The loop of [collapseFormalParamInternal] over the element types of a
    struct, from the index [i] on. *)
Fixpoint collapseFields (i : nat) (subtyps : list Type_) (value : Value)
    (fields : list Value) : result (Value * list Value) :=
  match subtyps with
  | [] => Ok (value, fields)
  | subtyp :: subtyps' =>
      rbind (Compiler.collapseFormalParamInternal subtyp fields)
        (fun '(structField, remaining) =>
           collapseFields (S i) subtyps'
             (CreateInsertValue value structField i) remaining)
  end.

Section ValueOfFields.

Variable src : list nat -> Datum.

(** The fields of [valueOf (StructType ts) src], from the index [i] on. *)
Fixpoint valueOfFields (i : nat) (ts : list Type_) : list Value :=
  match ts with
  | [] => []
  | t' :: ts' =>
      valueOf t' (fun path => src (i :: path)) :: valueOfFields (S i) ts'
  end.

End ValueOfFields.

Section OffsetPaths.

Variable ElementOffset : Type_ -> nat -> Z.

(** The loop of [flattenAggregateTypeOffsets] over the element types of
    the struct [t], from the index [fieldIndex] on. *)
Definition offsetsLoop (t : Type_) : nat -> list Type_ -> list Z -> list Z :=
  fix loop (fieldIndex : nat) (rest : list Type_) (fields : list Z) :=
    match rest with
    | [] => fields
    | field :: rest' =>
        let suboffsets := flattenAggregateTypeOffsets ElementOffset field in
        let offset := wrap64 (ElementOffset t fieldIndex) in
        let suboffsets := map (fun o => wrap64 (o + offset)) suboffsets in
        loop (S fieldIndex) rest' (fields ++ suboffsets)
    end.

(** The type found in [t] by following the field indices of [path], from
    the outermost struct inwards. *)
Fixpoint typeAt (t : Type_) (path : list nat) : Type_ :=
  match path with
  | [] => t
  | i :: path' => typeAt (nth i (StructElementTypes t) VoidType) path'
  end.

(** The sum of the byte offsets met along [path]: the offset of each
    enclosing struct within its parent and, last, the offset of the field
    itself within the innermost struct. *)
Fixpoint pathOffset (t : Type_) (path : list nat) : Z :=
  match path with
  | [] => 0
  | i :: path' =>
      wrap64 (ElementOffset t i)
      + pathOffset (nth i (StructElementTypes t) VoidType) path'
  end%Z.

End OffsetPaths.

(** The paths of the elementary fields of [t], in declaration order. *)
Fixpoint leafPaths (t : Type_) : list (list nat) :=
  match t with
  | StructType elems =>
      (fix from (i : nat) (ts : list Type_) : list (list nat) :=
         match ts with
         | [] => []
         | t' :: ts' => map (cons i) (leafPaths t') ++ from (S i) ts'
         end) 0%nat elems
  | _ => [[]]
  end.

Fixpoint leafPathsFrom (i : nat) (ts : list Type_) : list (list nat) :=
  match ts with
  | [] => []
  | t' :: ts' => map (cons i) (leafPaths t') ++ leafPathsFrom (S i) ts'
  end.

(** ** The key classes *)

(** The class of a map key type. *)
Inductive KeyClass : Set :=
| KeyString
| BinaryComparable
| Unsupported.

Definition isBinaryComparable (c : KeyClass) : bool :=
  match c with BinaryComparable => true | _ => false end.

Definition isKeyString (c : KeyClass) : bool :=
  match c with KeyString => true | _ => false end.

(** The branch the three map operations take on the key type they test:
    the string test first, then [hashmapIsBinaryKey]. *)
Definition keyClassOf (keyType : types.Type_) : KeyClass :=
  if isBasicString keyType then KeyString
  else if hashmapIsBinaryKey keyType then BinaryComparable
  else Unsupported.

(** The class of a key type as the specification words it: strings are
    [KeyString]; booleans, integers and pointers are [BinaryComparable]; a
    struct is [BinaryComparable] iff every field is, an array iff its
    element type is; anything else is [Unsupported].  A named type has the
    class of the type it names. *)
Fixpoint specKeyClass (t : types.Type_) : KeyClass :=
  match t with
  | types.Basic kind =>
      match kind with
      | types.String | types.UntypedString => KeyString
      | types.Bool | types.UntypedBool => BinaryComparable
      | types.Int | types.Int8 | types.Int16 | types.Int32 | types.Int64
      | types.Uint | types.Uint8 | types.Uint16 | types.Uint32
      | types.Uint64 | types.Uintptr
      | types.UntypedInt | types.UntypedRune => BinaryComparable
      | _ => Unsupported
      end
  | types.Pointer _ => BinaryComparable
  | types.Struct fields =>
      if forallb (fun field => isBinaryComparable (specKeyClass (snd field)))
           fields
      then BinaryComparable else Unsupported
  | types.Array elem _ =>
      if isBinaryComparable (specKeyClass elem) then BinaryComparable
      else Unsupported
  | types.Named _ underlying => specKeyClass underlying
  | _ => Unsupported
  end.

(** [t] is an interface, or holds one in a struct field or an array
    element, at any depth. *)
Fixpoint containsInterface (t : types.Type_) : bool :=
  match t with
  | types.Interface _ => true
  | types.Struct fields =>
      existsb (fun field => containsInterface (snd field)) fields
  | types.Array elem _ => containsInterface elem
  | types.Named _ underlying => containsInterface underlying
  | _ => false
  end.

Section GoTypeInduction.

Variable P : types.Type_ -> Prop.
Hypothesis P_basic : forall kind, P (types.Basic kind).
Hypothesis P_pointer : forall elem, P (types.Pointer elem).
Hypothesis P_struct :
  forall fields,
    Forall (fun field => P (snd field)) fields -> P (types.Struct fields).
Hypothesis P_array : forall elem len, P elem -> P (types.Array elem len).
Hypothesis P_slice : forall elem, P (types.Slice elem).
Hypothesis P_map : forall key elem, P (types.Map key elem).
Hypothesis P_chan : forall elem, P (types.Chan elem).
Hypothesis P_interface : forall methods, P (types.Interface methods).
Hypothesis P_signature :
  forall params results, P (types.Signature params results).
Hypothesis P_named :
  forall name underlying, P underlying -> P (types.Named name underlying).

Fixpoint GoType_ind (t : types.Type_) : P t :=
  match t with
  | types.Basic kind => P_basic kind
  | types.Pointer elem => P_pointer elem
  | types.Struct fields =>
      P_struct fields
        ((fix all (fs : list (string * types.Type_))
            : Forall (fun field => P (snd field)) fs :=
            match fs with
            | [] => @List.Forall_nil _ _
            | f :: fs' =>
                @List.Forall_cons _ (fun field => P (snd field)) f fs'
                  (GoType_ind (snd f)) (all fs')
            end) fields)
  | types.Array elem len => P_array elem len (GoType_ind elem)
  | types.Slice elem => P_slice elem
  | types.Map key elem => P_map key elem
  | types.Chan elem => P_chan elem
  | types.Interface methods => P_interface methods
  | types.Signature params results => P_signature params results
  | types.Named name underlying =>
      P_named name underlying (GoType_ind underlying)
  end.

End GoTypeInduction.

(** ** Expanded arguments *)

(** The values one argument [v] becomes in a call: the flattened fields of
    a struct of at most [MaxFieldsPerParam] elementary fields, [v] itself
    otherwise. *)
Definition expansion (v : Value) : list Value :=
  match TypeKind_of (typeOf v) with
  | StructTypeKind =>
      if (length (flattenAggregateType (typeOf v)) <=? MaxFieldsPerParam)%nat
      then builder.flattenAggregate v else [v]
  | _ => [v]
  end.

(** The two implicit trailing arguments of a runtime call. *)
Definition implicitArgs : list Value :=
  [Undef i8ptrType; ConstPointerNull i8ptrType].

(** A compiler whose package [runtime] has the exported function [alloc],
    and the LLVM function it is compiled to. *)
Definition allocFn : Value :=
  VPointer (FunctionType (PointerType (IntegerType 8)) [IntegerType 32])
    (DGlobal "runtime.alloc").

Definition exportedAlloc : Compiler.state :=
  Compiler.mkState
    {[ "alloc" := Compiler.MFunction (Compiler.mkFunction (Some allocFn) true) ]}
    (mkBuilder [] 0).

(** ** Sample inputs *)

(** A struct of an integer and a nested struct of a pointer and a flag:
    three elementary fields. *)
Definition sampleNested : Value :=
  VStruct [VInt 32 (DInst 0 []);
           VStruct [VPointer (IntegerType 8) DZero; VInt 1 DUndef]].

(** Structs of three and of four integers. *)
Definition threeFields : Value :=
  VStruct [VInt 32 DZero; VInt 32 DUndef; VInt 8 DZero].

Definition fourFields : Value :=
  VStruct [VInt 32 DZero; VInt 32 DUndef; VInt 8 DZero; VInt 8 DZero].

(** A layout that puts the field [i] of every struct at byte [8 * i]. *)
Definition sampleLayout (t : Type_) (i : nat) : Z := (8 * Z.of_nat i)%Z.

Definition sampleStructType : Type_ :=
  StructType [IntegerType 64; StructType [IntegerType 64; IntegerType 64]].

(** A key type with an interface field, and a named string type. *)
Definition interfaceKey : types.Type_ :=
  types.Struct [("i", types.Interface [])].

Definition namedString : types.Type_ :=
  types.Named "MyString" (types.Basic types.String).

Definition sampleTypeString (t : types.Type_) : string :=
  match t with
  | types.Named name _ => name
  | types.Basic types.String => "string"
  | _ => "struct{i interface{}}"
  end.

(** A builder whose module declares the runtime functions of the string
    path. *)
Definition runtimeFn (name : string) (ret : Type_) : Value :=
  VPointer (FunctionType ret []) (DGlobal name).

Definition sampleBuilder : builder.state :=
  builder.mkState
    (<["runtime.hashmapStringSet" :=
         runtimeFn "runtime.hashmapStringSet" VoidType]>
       (<["runtime.hashmapStringDelete" :=
            runtimeFn "runtime.hashmapStringDelete" VoidType]>
          (<["runtime.hashmapStringGet" :=
               runtimeFn "runtime.hashmapStringGet" (IntegerType 1)]> ∅)))
    (mkBuilder [] 0) [].

Definition sampleMap : Value := VPointer (IntegerType 8) (DInst 100 []).
Definition sampleKey : Value :=
  VStruct [VPointer (IntegerType 8) (DInst 101 [0]); VInt 32 (DInst 101 [1])].
Definition sampleValue : Value := VInt 32 (DInst 102 []).

(** ** Definitions for the further properties *)

(** What [collapseFormalParamInternal] does with [fields] when it takes
    [n] of them. *)
Definition takesFields (t : Type_) (n : nat) : Prop :=
  forall fields : list Value,
    ((length fields < n)%nat ->
     Compiler.collapseFormalParamInternal t fields
     = Panic sliceBoundsOutOfRange)
    /\ ((n <= length fields)%nat ->
        exists v,
          Compiler.collapseFormalParamInternal t fields
          = Ok (v, drop n fields)).

(** [t] is a named type. *)
Definition isNamed (t : types.Type_) : bool :=
  match t with
  | types.Named _ _ => true
  | _ => false
  end.

(** The three values [createTemporaryAlloca] returns when the slot is
    allocated by the instruction numbered [id]. *)
Definition slotAlloca (id : N) (t : Type_) : Value :=
  instResult id (PointerType t).
Definition slotPtr (id : N) : Value := VPointer (IntegerType 8) (DInst id []).
Definition slotSize (t : Type_) : Value := VInt 64 (DSizeOf t).

(** A builder whose module declares the six runtime functions of the map
    operations. *)
Definition fullBuilder : builder.state :=
  builder.mkState
    (list_to_map
       [("runtime.hashmapStringGet",
         runtimeFn "runtime.hashmapStringGet" (IntegerType 1));
        ("runtime.hashmapStringSet",
         runtimeFn "runtime.hashmapStringSet" VoidType);
        ("runtime.hashmapStringDelete",
         runtimeFn "runtime.hashmapStringDelete" VoidType);
        ("runtime.hashmapBinaryGet",
         runtimeFn "runtime.hashmapBinaryGet" (IntegerType 1));
        ("runtime.hashmapBinarySet",
         runtimeFn "runtime.hashmapBinarySet" VoidType);
        ("runtime.hashmapBinaryDelete",
         runtimeFn "runtime.hashmapBinaryDelete" VoidType)])
    (mkBuilder [] 0) [].

(** A key type of the binary path and a key value of it. *)
Definition pairKey : types.Type_ :=
  types.Struct [("x", types.Basic types.Int32); ("y", types.Basic types.Int32)].

Definition pairKeyValue : Value :=
  VStruct [VInt 32 (DInst 103 [0]); VInt 32 (DInst 103 [1])].

(** One round of [hashmapHash]: the byte [c] mixed into [result]. *)
Definition hashmapHashStep (result : Z) (c : Byte.byte) : Z :=
  wrap32 (Z.lxor result (Z.of_N (Byte.to_N c)) * 16777619).

(** * Properties *)

(** ** The loops, as list functions *)

Lemma fold_left_app_concat {A B} (f : A -> list B) (l : list A)
    (init : list B) :
  fold_left (fun acc x => acc ++ f x) l init = init ++ concat (map f l).
Proof.
  revert init. induction l as [|x l IH]; intros init; simpl.
  - by rewrite app_nil_r.
  - rewrite IH. by rewrite <- app_assoc.
Qed.

Lemma flattenAggregateType_struct (elems : list Type_) :
  flattenAggregateType (StructType elems)
  = concat (map flattenAggregateType elems).
Proof. simpl. by rewrite fold_left_app_concat. Qed.

Lemma flattenAggregateType_elementary (t : Type_) :
  TypeKind_of t <> StructTypeKind -> flattenAggregateType t = [t].
Proof. by destruct t. Qed.

Lemma builder_flattenAggregate_struct (elems : list Value) :
  builder.flattenAggregate (VStruct elems)
  = concat (map builder.flattenAggregate elems).
Proof.
  simpl.
  change (concat (map builder.flattenAggregate elems))
    with ([] ++ concat (map builder.flattenAggregate elems)).
  generalize (@nil Value) as fields, 0%nat as i.
  induction elems as [|v vs IH]; intros fields i; simpl.
  - by rewrite app_nil_r.
  - rewrite IH. by rewrite <- app_assoc.
Qed.

Lemma flattenAggregate_elementary (v : Value) :
  TypeKind_of (typeOf v) <> StructTypeKind ->
  Compiler.flattenAggregate v = [v] /\ builder.flattenAggregate v = [v].
Proof. by destruct v. Qed.

(** The two copies of [flattenAggregate] and of [expandFormalParam] are
    the same code. *)
Lemma flattenAggregate_same (v : Value) :
  Compiler.flattenAggregate v = builder.flattenAggregate v.
Proof. reflexivity. Qed.

Lemma expandFormalParam_same (v : Value) :
  Compiler.expandFormalParam v = builder.expandFormalParam v.
Proof. reflexivity. Qed.

Lemma map_nth_seq_from {A} (d : A) (pre l : list A) :
  map (fun i => nth i (pre ++ l) d) (seq (length pre) (length l)) = l.
Proof.
  revert pre. induction l as [|x l IH]; intros pre; simpl; [done|].
  f_equal.
  - rewrite app_nth2 by lia. by rewrite Nat.sub_diag.
  - specialize (IH (pre ++ [x])).
    rewrite <- app_assoc, length_app in IH. simpl in IH.
    by rewrite Nat.add_1_r in IH.
Qed.

(** The loop of [flattenAggregate] visits, at index [i], the value that
    [CreateExtractValue(v, i, "")] returns, for the indices of
    [v.Type().StructElementTypes()]. *)
Lemma flattenAggregate_loop (v : Value) :
  TypeKind_of (typeOf v) = StructTypeKind ->
  builder.flattenAggregate v
  = fold_left
      (fun fields i =>
         fields ++ builder.flattenAggregate (CreateExtractValue v i))
      (seq 0 (StructElementTypesCount (typeOf v))) [].
Proof.
  destruct v as [| | | | | | |elems]; try discriminate. intros _.
  rewrite builder_flattenAggregate_struct, fold_left_app_concat.
  unfold StructElementTypesCount. simpl StructElementTypes.
  rewrite length_map. simpl app. f_equal.
  rewrite <- (map_nth_seq_from (VStruct elems) [] elems) at 1.
  by rewrite map_map.
Qed.

(** Value and type flattening agree field by field. *)
Lemma flattenAggregate_types (v : Value) :
  map typeOf (builder.flattenAggregate v) = flattenAggregateType (typeOf v).
Proof.
  induction v as [v Hv | fields IH] using Value_struct_ind.
  - destruct (flattenAggregate_elementary v Hv) as [_ ->].
    by rewrite flattenAggregateType_elementary.
  - rewrite builder_flattenAggregate_struct. simpl typeOf.
    rewrite flattenAggregateType_struct.
    induction IH as [|v vs Hv _ IHvs]; simpl; [done|].
    by rewrite map_app, Hv, IHvs.
Qed.

Lemma flattenAggregate_length (v : Value) :
  length (builder.flattenAggregate v)
  = length (flattenAggregateType (typeOf v)).
Proof. by rewrite <- flattenAggregate_types, length_map. Qed.

(** ** Expansion *)

Lemma expandFormalParam_elementary (v : Value) :
  TypeKind_of (typeOf v) <> StructTypeKind ->
  builder.expandFormalParam v = Ok [v].
Proof.
  unfold builder.expandFormalParam.
  by destruct (TypeKind_of (typeOf v)).
Qed.

Lemma expandFormalParam_struct (v : Value) :
  TypeKind_of (typeOf v) = StructTypeKind ->
  builder.expandFormalParam v
  = Ok (if (length (flattenAggregateType (typeOf v)) <=? MaxFieldsPerParam)%nat
        then builder.flattenAggregate v else [v]).
Proof.
  unfold builder.expandFormalParam. intros ->.
  rewrite flattenAggregate_length, Nat.eqb_refl. simpl.
  by destruct (_ <=? _)%nat.
Qed.

(** C4. For every value [v], [flattenAggregate] returns as many values as
    [flattenAggregateType] returns types for the type of [v]; hence
    [expandFormalParam] never takes the branch that panics with "type and
    value param lowering don't match": it returns a list for every [v]. *)
Theorem flattenAggregate_count_agrees (v : Value) :
  length (builder.flattenAggregate v)
  = length (flattenAggregateType (typeOf v))
  /\ builder.expandFormalParam v
     <> Panic "type and value param lowering don't match"
  /\ exists fields, builder.expandFormalParam v = Ok fields.
Proof.
  split; [apply flattenAggregate_length|].
  assert (exists fields, builder.expandFormalParam v = Ok fields) as Hok.
  { destruct (TypeKind_of (typeOf v)) eqn:Hk;
      try (rewrite expandFormalParam_elementary by (by rewrite Hk); eauto).
    rewrite expandFormalParam_struct by done. eauto. }
  split; [|done]. destruct Hok as [fields ->]. discriminate.
Qed.

(** C6. A struct value whose type flattens to exactly 3 elementary fields
    is expanded into exactly 3 values, the flattened fields; a struct value
    whose type flattens to 4 fields is returned as the single value itself.
    [expandFormalParamType] does the same on the type. *)
Theorem expandFormalParam_at_the_bound (v : Value) :
  TypeKind_of (typeOf v) = StructTypeKind ->
  (length (flattenAggregateType (typeOf v)) = 3%nat ->
   exists a b c,
     builder.expandFormalParam v = Ok [a; b; c]
     /\ builder.flattenAggregate v = [a; b; c]
     /\ expandFormalParamType (typeOf v) = [typeOf a; typeOf b; typeOf c])
  /\ (length (flattenAggregateType (typeOf v)) = 4%nat ->
      builder.expandFormalParam v = Ok [v]
      /\ expandFormalParamType (typeOf v) = [typeOf v]).
Proof.
  intros Hk. rewrite expandFormalParam_struct by done.
  unfold expandFormalParamType. rewrite Hk.
  split; intros Hlen; rewrite Hlen; simpl.
  - pose proof (flattenAggregate_length v) as Hl. rewrite Hlen in Hl.
    destruct (builder.flattenAggregate v) as [|a [|b [|c [|]]]] eqn:Hf;
      try discriminate.
    exists a, b, c. repeat split.
    by rewrite <- flattenAggregate_types, Hf.
  - done.
Qed.

(** ** Collapse after expansion *)

Lemma collapseFormalParamInternal_struct (elems : list Type_)
    (fields : list Value) :
  Compiler.collapseFormalParamInternal (StructType elems) fields
  = if (length (flattenAggregateType (StructType elems))
        <=? MaxFieldsPerParam)%nat
    then collapseFields 0 elems (ConstNull (StructType elems)) fields
    else match fields with
         | [] => Panic sliceBoundsOutOfRange
         | field :: remaining => Ok (field, remaining)
         end.
Proof. reflexivity. Qed.

Lemma collapseFormalParamInternal_one (t : Type_) (v : Value)
    (rest : list Value) :
  TypeKind_of t <> StructTypeKind
  \/ (MaxFieldsPerParam < length (flattenAggregateType t))%nat ->
  Compiler.collapseFormalParamInternal t (v :: rest) = Ok (v, rest).
Proof.
  intros [Hk|Hlen].
  - by destruct t.
  - destruct t; try done.
    rewrite collapseFormalParamInternal_struct.
    by rewrite (proj2 (Nat.leb_gt _ _)).
Qed.

Lemma valueOf_struct (ts : list Type_) (src : list nat -> Datum) :
  valueOf (StructType ts) src = VStruct (valueOfFields src 0 ts).
Proof. reflexivity. Qed.

Lemma valueOfFields_length (src : list nat -> Datum) (i : nat)
    (ts : list Type_) :
  length (valueOfFields src i ts) = length ts.
Proof. revert i. induction ts as [|t ts IH]; intros i; simpl; auto. Qed.

Lemma typeOf_valueOf (t : Type_) :
  forall src, typeOf (valueOf t src) = t.
Proof.
  induction t as [t Ht | elems IH] using Type_struct_ind; intros src.
  - by destruct t.
  - rewrite valueOf_struct. simpl. f_equal.
    generalize 0%nat as i.
    induction IH as [|t ts Ht _ IHts]; intros i; simpl; [done|].
    by rewrite Ht, IHts.
Qed.

Lemma flattenAggregateType_field_le (elems : list Type_) (t : Type_) :
  In t elems ->
  (length (flattenAggregateType t)
   <= length (flattenAggregateType (StructType elems)))%nat.
Proof.
  rewrite flattenAggregateType_struct.
  induction elems as [|t' ts IH]; simpl; [done|].
  rewrite length_app. intros [->|Hin]; [lia|]. specialize (IH Hin). lia.
Qed.

(** The loop rebuilds the fields of the struct one by one, in place. *)
Lemma collapseFields_flatten (vs : list Value) :
  Forall (fun v => forall rest,
            Compiler.collapseFormalParamInternal (typeOf v)
              (builder.flattenAggregate v ++ rest) = Ok (v, rest)) vs ->
  forall (pre zs rest : list Value),
    length zs = length vs ->
    collapseFields (length pre) (map typeOf vs) (VStruct (pre ++ zs))
      (concat (map builder.flattenAggregate vs) ++ rest)
    = Ok (VStruct (pre ++ vs), rest).
Proof.
  induction 1 as [|v vs Hv _ IH]; intros pre zs rest Hlen.
  - destruct zs; [done|discriminate].
  - destruct zs as [|z zs]; [discriminate|]. simpl in Hlen.
    simpl. rewrite <- app_assoc, Hv. simpl.
    replace (<[length pre := v]> (pre ++ z :: zs)) with ((pre ++ [v]) ++ zs).
    + specialize (IH (pre ++ [v]) zs rest ltac:(lia)).
      rewrite length_app in IH. simpl in IH.
      rewrite Nat.add_1_r in IH. rewrite IH.
      by rewrite <- app_assoc.
    + rewrite insert_app_r_alt by lia. rewrite Nat.sub_diag. simpl.
      by rewrite <- app_assoc.
Qed.

Lemma collapse_flatten (v : Value) :
  (length (flattenAggregateType (typeOf v)) <= MaxFieldsPerParam)%nat ->
  forall rest,
    Compiler.collapseFormalParamInternal (typeOf v)
      (builder.flattenAggregate v ++ rest) = Ok (v, rest).
Proof.
  induction v as [v Hv | fields IH] using Value_struct_ind; intros Hlen rest.
  - destruct (flattenAggregate_elementary v Hv) as [_ ->]. simpl.
    apply collapseFormalParamInternal_one. by left.
  - simpl typeOf in *. rewrite collapseFormalParamInternal_struct.
    rewrite (proj2 (Nat.leb_le _ _) Hlen).
    rewrite builder_flattenAggregate_struct.
    unfold ConstNull. rewrite valueOf_struct.
    apply (collapseFields_flatten fields) with (pre := []).
    + rewrite Forall_forall in IH. apply Forall_forall. intros v Hin rest'.
      apply IH; [done|].
      etrans; [|exact Hlen]. apply flattenAggregateType_field_le.
      apply in_map. by apply list_elem_of_In.
    + etrans; [apply (valueOfFields_length (fun _ => DZero))|].
      apply length_map.
Qed.

(** C1. For every value [v] of type [t], [expandFormalParam] returns a
    list of fields that [collapseFormalParam] at [t] turns back into [v],
    whatever the nesting depth and the number of flattened fields.  When
    [t] is elementary or flattens to more than 3 fields, the list is [v]
    alone and [collapseFormalParamInternal] takes one value from the
    front. *)
Theorem collapse_expand_roundtrip (t : Type_) (v : Value) :
  typeOf v = t ->
  exists fields,
    Compiler.expandFormalParam v = Ok fields
    /\ Compiler.collapseFormalParam t fields = Ok v
    /\ (TypeKind_of t <> StructTypeKind
        \/ (MaxFieldsPerParam < length (flattenAggregateType t))%nat ->
        fields = [v]
        /\ forall rest,
             Compiler.collapseFormalParamInternal t (v :: rest)
             = Ok (v, rest)).
Proof.
  intros <-. rewrite expandFormalParam_same.
  destruct (TypeKind_of (typeOf v)) eqn:Hk;
    try (exists [v]; rewrite expandFormalParam_elementary by (by rewrite Hk);
         split; [done|]; unfold Compiler.collapseFormalParam;
         rewrite collapseFormalParamInternal_one by (left; by rewrite Hk);
         split; [done|]; intros _; split; [done|]; intros rest;
         apply collapseFormalParamInternal_one; left; by rewrite Hk).
  rewrite expandFormalParam_struct by done.
  destruct (length (flattenAggregateType (typeOf v)) <=? MaxFieldsPerParam)%nat
    eqn:Hle.
  - apply Nat.leb_le in Hle. exists (builder.flattenAggregate v).
    split; [done|]. split.
    + unfold Compiler.collapseFormalParam.
      rewrite <- (app_nil_r (builder.flattenAggregate v)).
      by rewrite collapse_flatten.
    + intros [Hne|Hgt]; [done|lia].
  - apply Nat.leb_gt in Hle. exists [v]. split; [done|].
    unfold Compiler.collapseFormalParam.
    rewrite collapseFormalParamInternal_one by (by right).
    split; [done|]. intros _. split; [done|]. intros rest.
    apply collapseFormalParamInternal_one. by right.
Qed.

(** ** Offsets of the flattened fields *)

Section OffsetProperties.

Variable ElementOffset : Type_ -> nat -> Z.

Lemma flattenAggregateTypeOffsets_struct (elems : list Type_) :
  flattenAggregateTypeOffsets ElementOffset (StructType elems)
  = offsetsLoop ElementOffset (StructType elems) 0 elems [].
Proof. reflexivity. Qed.

Lemma leafPaths_struct (elems : list Type_) :
  leafPaths (StructType elems) = leafPathsFrom 0 elems.
Proof. reflexivity. Qed.

Lemma wrap64_add_l (a b : Z) : wrap64 (wrap64 a + b) = wrap64 (a + b).
Proof. unfold wrap64. by rewrite Zplus_mod_idemp_l. Qed.

Lemma wrap64_small (z : Z) : (0 <= z < 2 ^ 64)%Z -> wrap64 z = z.
Proof. intros. unfold wrap64. by apply Z.mod_small. Qed.

Lemma wrap64_range (z : Z) : (0 <= wrap64 z < 2 ^ 64)%Z.
Proof. unfold wrap64. apply Z.mod_pos_bound. lia. Qed.

Lemma pathOffset_nonneg (path : list nat) :
  forall t, (0 <= pathOffset ElementOffset t path)%Z.
Proof.
  induction path as [|i path IH]; intros t; simpl; [lia|].
  pose proof (wrap64_range (ElementOffset t i)). specialize (IH
    (nth i (StructElementTypes t) VoidType)). lia.
Qed.

Lemma offsetsLoop_paths (elems rest : list Type_) :
  Forall (fun t => flattenAggregateTypeOffsets ElementOffset t
                   = map (fun p => wrap64 (pathOffset ElementOffset t p))
                       (leafPaths t)) rest ->
  forall (pre : list Type_) (fields : list Z),
    elems = pre ++ rest ->
    offsetsLoop ElementOffset (StructType elems) (length pre) rest fields
    = fields
      ++ map (fun p => wrap64 (pathOffset ElementOffset (StructType elems) p))
           (leafPathsFrom (length pre) rest).
Proof.
  induction 1 as [|t rest Ht _ IH]; intros pre fields Helems; simpl.
  - by rewrite app_nil_r.
  - specialize (IH (pre ++ [t])). rewrite length_app in IH. simpl in IH.
    rewrite Nat.add_1_r in IH. rewrite IH by (by rewrite <- app_assoc).
    rewrite <- app_assoc. f_equal. rewrite map_app. f_equal.
    rewrite Ht, !map_map. apply map_ext. intros p. simpl.
    rewrite Helems, app_nth2 by lia. rewrite Nat.sub_diag. simpl.
    rewrite wrap64_add_l. f_equal. lia.
Qed.

Lemma flattenAggregateTypeOffsets_paths (t : Type_) :
  flattenAggregateTypeOffsets ElementOffset t
  = map (fun p => wrap64 (pathOffset ElementOffset t p)) (leafPaths t).
Proof.
  induction t as [t Ht | elems IH] using Type_struct_ind.
  - by destruct t.
  - rewrite flattenAggregateTypeOffsets_struct, leafPaths_struct.
    by apply (offsetsLoop_paths elems elems IH []).
Qed.

Lemma leafPathsFrom_types (elems rest : list Type_) :
  Forall (fun t => map (typeAt t) (leafPaths t) = flattenAggregateType t)
    rest ->
  forall pre : list Type_,
    elems = pre ++ rest ->
    map (typeAt (StructType elems)) (leafPathsFrom (length pre) rest)
    = concat (map flattenAggregateType rest).
Proof.
  induction 1 as [|t rest Ht _ IH]; intros pre Helems; simpl; [done|].
  specialize (IH (pre ++ [t])). rewrite length_app in IH. simpl in IH.
  rewrite Nat.add_1_r in IH.
  rewrite map_app, IH by (by rewrite <- app_assoc). f_equal.
  rewrite <- Ht, map_map. apply map_ext. intros p. simpl.
  rewrite Helems, app_nth2 by lia. by rewrite Nat.sub_diag.
Qed.

Lemma leafPaths_types (t : Type_) :
  map (typeAt t) (leafPaths t) = flattenAggregateType t.
Proof.
  induction t as [t Ht | elems IH] using Type_struct_ind.
  - by destruct t.
  - rewrite leafPaths_struct, flattenAggregateType_struct.
    by apply (leafPathsFrom_types elems elems IH []).
Qed.

(** C7. For every type [t], [flattenAggregateTypeOffsets] returns as many
    offsets as [flattenAggregateType] returns types.  The offsets are those
    of the elementary fields in flattening order, each the 64-bit sum of
    the byte offsets along the path from [t] to the field: the offset of
    every enclosing struct in its parent and the offset of the field in
    the innermost struct.  When these sums fit 64 bits they are the sums
    themselves. *)
Theorem flattenAggregateTypeOffsets_sums (t : Type_) :
  length (flattenAggregateTypeOffsets ElementOffset t) = length (flattenAggregateType t)
  /\ map (typeAt t) (leafPaths t) = flattenAggregateType t
  /\ flattenAggregateTypeOffsets ElementOffset t
     = map (fun p => wrap64 (pathOffset ElementOffset t p)) (leafPaths t)
  /\ (Forall (fun p => (pathOffset ElementOffset t p < 2 ^ 64)%Z)
        (leafPaths t) ->
      flattenAggregateTypeOffsets ElementOffset t = map (pathOffset ElementOffset t) (leafPaths t)).
Proof.
  split; [|split; [apply leafPaths_types|split]].
  - rewrite flattenAggregateTypeOffsets_paths, <- leafPaths_types.
    by rewrite !length_map.
  - apply flattenAggregateTypeOffsets_paths.
  - intros Hfit. rewrite flattenAggregateTypeOffsets_paths.
    apply map_ext_Forall. eapply Forall_impl; [exact Hfit|].
    intros p Hp. simpl in *. apply wrap64_small. split; [|done].
    apply pathOffset_nonneg.
Qed.

End OffsetProperties.

(** ** The key classifier *)

Lemma hashmapIsBinaryKey_Underlying (t : types.Type_) :
  hashmapIsBinaryKey (types.Underlying t) = hashmapIsBinaryKey t.
Proof. by destruct t. Qed.

(** The loop over the fields stops at the first field that is not a binary
    key. *)
Lemma hashmapIsBinaryKey_struct (fields : list (string * types.Type_)) :
  hashmapIsBinaryKey (types.Struct fields)
  = forallb (fun field => hashmapIsBinaryKey (snd field)) fields.
Proof.
  simpl. induction fields as [|f fs IH]; simpl; [done|].
  rewrite hashmapIsBinaryKey_Underlying.
  by destruct (hashmapIsBinaryKey (snd f)).
Qed.

Lemma hashmapIsBinaryKey_spec (t : types.Type_) :
  hashmapIsBinaryKey t = isBinaryComparable (specKeyClass t).
Proof.
  induction t as [kind|elem|fields IH|elem len IH| | | | | |name u IH]
    using GoType_ind; try done.
  - by destruct kind.
  - rewrite hashmapIsBinaryKey_struct. simpl specKeyClass.
    assert (forallb (fun field => hashmapIsBinaryKey (snd field)) fields
            = forallb (fun field => isBinaryComparable
                                      (specKeyClass (snd field))) fields)
      as ->.
    { induction IH as [|f fs Hf _ IHfs]; simpl; [done|].
      by rewrite Hf, IHfs. }
    by destruct (forallb _ fields).
  - simpl. rewrite IH. by destruct (isBinaryComparable _).
Qed.

Lemma containsInterface_Unsupported (t : types.Type_) :
  containsInterface t = true -> specKeyClass t = Unsupported.
Proof.
  induction t as [kind|elem|fields IH|elem len IH| | | | | |name u IH]
    using GoType_ind; try done.
  - simpl. intros Hex.
    assert (forallb (fun field => isBinaryComparable
                                    (specKeyClass (snd field))) fields
            = false) as ->; [|done].
    induction IH as [|f fs Hf _ IHfs]; simpl in *; [done|].
    destruct (containsInterface (snd f)); simpl in Hex.
    + by rewrite Hf.
    + rewrite IHfs by done. apply andb_false_r.
  - simpl. intros Hc. by rewrite IH.
Qed.

Lemma containsInterface_not_string (t : types.Type_) :
  containsInterface t = true -> isBasicString t = false.
Proof. by destruct t. Qed.

Lemma keyClassOf_specKeyClass (t : types.Type_) :
  isNamed t = false -> keyClassOf t = specKeyClass t.
Proof.
  intros Hn. destruct t as [kind| | | | | | | | |]; try done.
  - by destruct kind.
  - unfold keyClassOf. simpl isBasicString. cbv iota.
    rewrite hashmapIsBinaryKey_spec.
    by destruct (specKeyClass (types.Struct fields)) eqn:Hs;
      [simpl in Hs; destruct (forallb _ fields)| |].
  - unfold keyClassOf. simpl isBasicString. cbv iota.
    rewrite hashmapIsBinaryKey_spec.
    by destruct (specKeyClass (types.Array t len)) eqn:Hs;
      [simpl in Hs; destruct (isBinaryComparable _)| |].
Qed.

Lemma specKeyClass_Underlying (t : types.Type_) :
  specKeyClass (types.Underlying t) = specKeyClass t.
Proof. by destruct t. Qed.

(** ** The top hash *)

(** C10. For every 32-bit [hash], [hashmapTopHash hash] is not zero: it is
    the top 8 bits of [hash], and 1 when these are 0. *)
Theorem hashmapTopHash_nonzero (hash : Z) :
  (0 <= hash < 2 ^ 32)%Z ->
  hashmapTopHash hash <> 0%Z
  /\ (0 < hashmapTopHash hash < 2 ^ 8)%Z
  /\ hashmapTopHash hash
     = (if (Z.shiftr hash 24 =? 0)%Z then 1 else Z.shiftr hash 24)%Z.
Proof.
  intros Hh. unfold hashmapTopHash.
  assert (0 <= Z.shiftr hash 24 < 2 ^ 8)%Z as Htop.
  { rewrite Z.shiftr_div_pow2 by lia. split.
    - apply Z.div_pos; lia.
    - apply Z.div_lt_upper_bound; lia. }
  rewrite (Z.mod_small (Z.shiftr hash 24)) by done.
  destruct (Z.ltb_spec (Z.shiftr hash 24) 1) as [Hlt|Hge].
  - assert (Z.shiftr hash 24 = 0)%Z as -> by lia. by cbn.
  - destruct (Z.eqb_spec (Z.shiftr hash 24) 0); lia.
Qed.

(** ** Error aggregation *)

(** C9. [newMultiError] on a list of exactly one error returns that error
    itself; on more than one it returns a [MultiError] holding all of them
    in order, whose [Error()] is the first error's; on the empty list it
    panics. *)
Theorem newMultiError_cases :
  (forall e, newMultiError [e] = Ok e)
  /\ (forall e1 e2 rest,
        newMultiError (e1 :: e2 :: rest) = Ok (MultiError (e1 :: e2 :: rest))
        /\ Error (MultiError (e1 :: e2 :: rest)) = Error e1)
  /\ newMultiError [] = Panic indexOutOfRange.
Proof. repeat split. Qed.

(** ** Runtime calls *)

Lemma expandFormalParam_expansion (v : Value) :
  builder.expandFormalParam v = Ok (expansion v).
Proof.
  unfold expansion. destruct (TypeKind_of (typeOf v)) eqn:Hk;
    try (by rewrite expandFormalParam_elementary by (by rewrite Hk)).
  by rewrite expandFormalParam_struct.
Qed.

Lemma builder_expandArgs_expansion (args expanded : list Value) :
  builder.expandArgs args expanded
  = Ok (expanded ++ concat (map expansion args)).
Proof.
  revert expanded. induction args as [|arg args IH]; intros expanded; simpl.
  - by rewrite app_nil_r.
  - rewrite expandFormalParam_expansion. simpl. rewrite IH.
    by rewrite <- app_assoc.
Qed.

Lemma Compiler_expandArgs_expansion (args expanded : list Value) :
  Compiler.expandArgs args expanded
  = Ok (expanded ++ concat (map expansion args)).
Proof. apply builder_expandArgs_expansion. Qed.

Lemma expansion_implicitArgs :
  concat (map expansion implicitArgs) = implicitArgs.
Proof. reflexivity. Qed.

Lemma builder_createRuntimeCall_run (b : builder.state) (fnName : string)
    (args : list Value) (name : string) (fn : Value) :
  builder.mod_ b !! ("runtime." ++ fnName)%string = Some fn ->
  builder.createRuntimeCall fnName args name b
  = Ok (instResult (nextId (builder.Builder_ b)) (returnType fn),
        builder.mkState (builder.mod_ b)
          (emit (ICall fn (concat (map expansion args) ++ implicitArgs) name)
             (builder.Builder_ b))
          (builder.diagnostics b)).
Proof.
  intros Hfn. unfold builder.createRuntimeCall. rewrite Hfn.
  unfold builder.createCall. rewrite builder_expandArgs_expansion. simpl.
  by rewrite !map_app, !concat_app, <- app_assoc.
Qed.

Lemma Compiler_createRuntimeCall_run (c : Compiler.state) (fnName : string)
    (args : list Value) (name : string) (fn : Compiler.Function)
    (llvmFn : Value) :
  Compiler.runtimeMembers c !! fnName = Some (Compiler.MFunction fn) ->
  Compiler.LLVMFn fn = Some llvmFn ->
  Compiler.createRuntimeCall fnName args name c
  = Ok (instResult (nextId (Compiler.builder c)) (returnType llvmFn),
        Compiler.mkState (Compiler.runtimeMembers c)
          (emit (ICall llvmFn
                   (concat (map expansion args)
                    ++ (if Compiler.IsExported fn then [] else implicitArgs))
                   name)
             (Compiler.builder c))).
Proof.
  intros Hm Hfn. unfold Compiler.createRuntimeCall. rewrite Hm, Hfn.
  unfold Compiler.createCall. rewrite Compiler_expandArgs_expansion. simpl.
  destruct (Compiler.IsExported fn); simpl.
  - by rewrite app_nil_r.
  - by rewrite !map_app, !concat_app, <- app_assoc.
Qed.

(** C2, as amended.  A call emitted through [builder.createRuntimeCall]
    has the caller's arguments, expanded, followed by exactly the two
    implicit arguments: an undef [i8*] and a null [i8*].  A call emitted
    through [Compiler.createRuntimeCall] has them when the runtime
    function is not exported; for an exported function it has the caller's
    arguments alone. *)
Theorem createRuntimeCall_implicit_arguments :
  implicitArgs
  = [VPointer (IntegerType 8) DUndef; VPointer (IntegerType 8) DZero]
  /\ (forall (b : builder.state) fnName args name fn,
        builder.mod_ b !! ("runtime." ++ fnName)%string = Some fn ->
        exists call b',
          builder.createRuntimeCall fnName args name b = Ok (call, b')
          /\ instrs (builder.Builder_ b')
             = instrs (builder.Builder_ b)
               ++ [ICall fn (concat (map expansion args) ++ implicitArgs)
                     name])
  /\ (forall (c : Compiler.state) fnName args name fn llvmFn,
        Compiler.runtimeMembers c !! fnName = Some (Compiler.MFunction fn) ->
        Compiler.LLVMFn fn = Some llvmFn ->
        exists call c',
          Compiler.createRuntimeCall fnName args name c = Ok (call, c')
          /\ instrs (Compiler.builder c')
             = instrs (Compiler.builder c)
               ++ [ICall llvmFn
                     (concat (map expansion args)
                      ++ (if Compiler.IsExported fn then []
                          else implicitArgs))
                     name]).
Proof.
  split; [done|]. split.
  - intros b fnName args name fn Hfn.
    rewrite (builder_createRuntimeCall_run b fnName args name fn Hfn).
    by eexists _, _.
  - intros c fnName args name fn llvmFn Hm Hfn.
    rewrite (Compiler_createRuntimeCall_run c fnName args name fn llvmFn
               Hm Hfn).
    by eexists _, _.
Qed.

(** The claim C2 as first stated fails on [Compiler.createRuntimeCall]:
    the call to the exported [runtime.alloc] has no implicit argument. *)
Lemma createRuntimeCall_exported_no_implicit_arguments :
  ~ (forall (c : Compiler.state) fnName args name call c',
       Compiler.createRuntimeCall fnName args name c = Ok (call, c') ->
       exists fn,
         instrs (Compiler.builder c')
         = instrs (Compiler.builder c)
           ++ [ICall fn (concat (map expansion args) ++ implicitArgs) name]).
Proof.
  intros Hclaim.
  destruct (Hclaim exportedAlloc "alloc" [] ""
              (instResult 0 (returnType allocFn))
              (Compiler.mkState (Compiler.runtimeMembers exportedAlloc)
                 (emit (ICall allocFn [] "") (Compiler.builder exportedAlloc))))
    as [fn Hfn].
  - rewrite (Compiler_createRuntimeCall_run exportedAlloc "alloc" [] ""
               (Compiler.mkFunction (Some allocFn) true) allocFn);
      [done| |done].
    apply lookup_singleton_eq.
  - simpl in Hfn. discriminate.
Qed.

(** ** The three map operations *)

Lemma keyClassOf_Named (name : string) (underlying : types.Type_) :
  keyClassOf (types.Named name underlying)
  = if hashmapIsBinaryKey underlying then BinaryComparable else Unsupported.
Proof. reflexivity. Qed.

(** [createMapLookup] classifies the key type as given, [createMapUpdate]
    and [createMapDelete] its underlying type; the two classes differ
    exactly on a named type that names a basic string type. *)
Lemma keyClassOf_Underlying (keyType : types.Type_) :
  keyClassOf keyType
  = match keyType with
    | types.Named _ underlying =>
        if isBasicString underlying then Unsupported
        else keyClassOf (types.Underlying keyType)
    | _ => keyClassOf (types.Underlying keyType)
    end.
Proof.
  destruct keyType as [| | | | | | | | |name u]; try done.
  rewrite keyClassOf_Named. simpl. unfold keyClassOf.
  destruct (isBasicString u) eqn:Hs; [|done].
  destruct u as [kind| | | | | | | | |]; try done. by destruct kind.
Qed.

Lemma createMapLookup_unsupported (getLLVMType : types.Type_ -> Type_)
    (TypeString : types.Type_ -> string) (keyType valueType : types.Type_)
    (m key : Value) (commaOk : bool) (pos : Pos) (b : builder.state) :
  keyClassOf keyType = Unsupported ->
  builder.createMapLookup getLLVMType TypeString keyType valueType m key
    commaOk pos b
  = Ok ((None,
         Some (builder.mkDiagnostic pos
                 (builder.unsupportedKey ++ TypeString keyType)%string)),
        builder.mkState (builder.mod_ b)
          (emit (IAlloca (getLLVMType valueType) "hashmap.value")
             (builder.Builder_ b))
          (builder.diagnostics b)).
Proof.
  unfold keyClassOf, builder.createMapLookup. intros Hc.
  destruct (isBasicString keyType); [done|].
  by destruct (hashmapIsBinaryKey keyType).
Qed.

Lemma createMapUpdate_string (TypeString : types.Type_ -> string)
    (keyType : types.Type_) (m key value fn : Value) (pos : Pos)
    (b : builder.state) :
  keyClassOf (types.Underlying keyType) = KeyString ->
  builder.mod_ b !! "runtime.hashmapStringSet" = Some fn ->
  let valueAlloca :=
    instResult (nextId (builder.Builder_ b)) (PointerType (typeOf value)) in
  let valuePtr :=
    VPointer (IntegerType 8) (DInst (nextId (builder.Builder_ b)) []) in
  builder.createMapUpdate TypeString keyType m key value pos b
  = Ok (tt,
        builder.mkState (builder.mod_ b)
          (emit (ILifetimeEnd valuePtr (VInt 64 (DSizeOf (typeOf value))))
             (emit (ICall fn
                      (concat (map expansion [m; key; valuePtr])
                       ++ implicitArgs) "")
                (emit (IStore value valueAlloca)
                   (emit (IAlloca (typeOf value) "hashmap.value")
                      (builder.Builder_ b)))))
          (builder.diagnostics b)).
Proof.
  unfold keyClassOf, builder.createMapUpdate. intros Hc Hfn.
  destruct (isBasicString (types.Underlying keyType));
    [|by destruct (hashmapIsBinaryKey (types.Underlying keyType))].
  unfold builder.bind, builder.createTemporaryAlloca, builder.instr,
    builder.emitLifetimeEnd, builder.ret.
  cbn [rbind fst snd].
  by rewrite (builder_createRuntimeCall_run _ "hashmapStringSet" _ "" fn).
Qed.

Lemma createMapDelete_string (TypeString : types.Type_ -> string)
    (keyType : types.Type_) (m key fn : Value) (pos : Pos)
    (b : builder.state) :
  keyClassOf (types.Underlying keyType) = KeyString ->
  builder.mod_ b !! "runtime.hashmapStringDelete" = Some fn ->
  builder.createMapDelete TypeString keyType m key pos b
  = Ok (None,
        builder.mkState (builder.mod_ b)
          (emit (ICall fn (concat (map expansion [m; key]) ++ implicitArgs) "")
             (builder.Builder_ b))
          (builder.diagnostics b)).
Proof.
  unfold keyClassOf, builder.createMapDelete. intros Hc Hfn.
  destruct (isBasicString (types.Underlying keyType));
    [|by destruct (hashmapIsBinaryKey (types.Underlying keyType))].
  unfold builder.bind.
  by rewrite (builder_createRuntimeCall_run _ "hashmapStringDelete" _ "" fn).
Qed.

(** C3, the code at the failing input.  For a named type that names
    [string], [createMapLookup] resolves the class [Unsupported]: it emits
    no runtime call and returns the diagnostic of an unsupported key;
    [createMapUpdate] and [createMapDelete] resolve [KeyString] and emit
    the calls of the string path. *)
Theorem createMapLookup_named_string_diverges
    (getLLVMType : types.Type_ -> Type_) (TypeString : types.Type_ -> string)
    (name : string) (valueType : types.Type_) (m key value : Value)
    (commaOk : bool) (pos : Pos) (b : builder.state)
    (setFn deleteFn : Value) :
  let keyType := types.Named name (types.Basic types.String) in
  builder.mod_ b !! "runtime.hashmapStringSet" = Some setFn ->
  builder.mod_ b !! "runtime.hashmapStringDelete" = Some deleteFn ->
  keyClassOf keyType = Unsupported
  /\ keyClassOf (types.Underlying keyType) = KeyString
  /\ (exists b',
        builder.createMapLookup getLLVMType TypeString keyType valueType
          m key commaOk pos b
        = Ok ((None,
               Some (builder.mkDiagnostic pos
                       (builder.unsupportedKey ++ TypeString keyType)%string)),
              b')
        /\ instrs (builder.Builder_ b')
           = instrs (builder.Builder_ b)
             ++ [IAlloca (getLLVMType valueType) "hashmap.value"])
  /\ (exists b',
        builder.createMapUpdate TypeString keyType m key value pos b
        = Ok (tt, b')
        /\ builder.diagnostics b' = builder.diagnostics b
        /\ let valuePtr :=
             VPointer (IntegerType 8)
               (DInst (nextId (builder.Builder_ b)) []) in
           instrs (builder.Builder_ b')
           = instrs (builder.Builder_ b)
             ++ [IAlloca (typeOf value) "hashmap.value";
                 IStore value
                   (instResult (nextId (builder.Builder_ b))
                      (PointerType (typeOf value)));
                 ICall setFn
                   (concat (map expansion [m; key; valuePtr])
                    ++ implicitArgs) "";
                 ILifetimeEnd valuePtr (VInt 64 (DSizeOf (typeOf value)))])
  /\ (exists b',
        builder.createMapDelete TypeString keyType m key pos b
        = Ok (None, b')
        /\ builder.diagnostics b' = builder.diagnostics b
        /\ instrs (builder.Builder_ b')
           = instrs (builder.Builder_ b)
             ++ [ICall deleteFn
                   (concat (map expansion [m; key]) ++ implicitArgs) ""]).
Proof.
  intros keyType Hset Hdel. split; [done|]. split; [done|].
  split; [|split].
  - rewrite createMapLookup_unsupported by done. by eexists.
  - rewrite (createMapUpdate_string TypeString keyType m key value setFn)
      by done.
    eexists. split; [done|]. split; [done|].
    simpl. by rewrite <- !app_assoc.
  - rewrite (createMapDelete_string TypeString keyType m key deleteFn)
      by done.
    by eexists.
Qed.

(** C5, the code at the failing input.  [hashmapIsBinaryKey] holds exactly
    of the types of the class [BinaryComparable]: booleans, integers,
    pointers, structs all of whose fields are and arrays whose element
    type is; a type that contains an interface is [Unsupported].  The
    class [createMapUpdate] and [createMapDelete] resolve, on the
    underlying type, is the class of the key type.  The class
    [createMapLookup] resolves, on the key type as given, is the class of
    the key type except on a named string type, which it makes
    [Unsupported]: for a named type that names [string] it returns the
    diagnostic of an unsupported key. *)
Theorem keyClassOf_named_string_diverges :
  (forall t, hashmapIsBinaryKey t = isBinaryComparable (specKeyClass t))
  /\ (forall elem, hashmapIsBinaryKey (types.Pointer elem) = true)
  /\ (forall fields,
        hashmapIsBinaryKey (types.Struct fields)
        = forallb (fun field => hashmapIsBinaryKey (snd field)) fields)
  /\ (forall elem len,
        hashmapIsBinaryKey (types.Array elem len) = hashmapIsBinaryKey elem)
  /\ (forall t, containsInterface t = true ->
        specKeyClass t = Unsupported /\ keyClassOf t = Unsupported)
  /\ (forall t, isNamed (types.Underlying t) = false ->
        keyClassOf (types.Underlying t) = specKeyClass t)
  /\ (forall t,
        keyClassOf t
        = if isNamed t && isKeyString (specKeyClass t) then Unsupported
          else specKeyClass t)
  /\ (forall (getLLVMType : types.Type_ -> Type_)
             (TypeString : types.Type_ -> string) name valueType m key
             commaOk pos b,
        let keyType := types.Named name (types.Basic types.String) in
        specKeyClass keyType = KeyString
        /\ keyClassOf keyType = Unsupported
        /\ exists b',
             builder.createMapLookup getLLVMType TypeString keyType
               valueType m key commaOk pos b
             = Ok ((None,
                    Some (builder.mkDiagnostic pos
                            (builder.unsupportedKey
                             ++ TypeString keyType)%string)),
                   b')).
Proof.
  split; [apply hashmapIsBinaryKey_spec|]. split; [done|].
  split; [apply hashmapIsBinaryKey_struct|]. split; [done|].
  split; [|split; [|split]].
  - intros t Hc. pose proof (containsInterface_Unsupported t Hc) as Hs.
    split; [done|]. unfold keyClassOf.
    rewrite containsInterface_not_string by done.
    by rewrite hashmapIsBinaryKey_spec, Hs.
  - intros t Hn.
    by rewrite keyClassOf_specKeyClass, specKeyClass_Underlying.
  - intros t. destruct (isNamed t) eqn:Hn.
    + destruct t; try discriminate. rewrite keyClassOf_Named.
      rewrite hashmapIsBinaryKey_spec. simpl.
      by destruct (specKeyClass t).
    + by apply keyClassOf_specKeyClass.
  - intros getLLVMType TypeString name valueType m key commaOk pos b keyType.
    split; [done|]. split; [done|].
    rewrite createMapLookup_unsupported by done. by eexists.
Qed.

(** C8. When the key type is unsupported, [createMapUpdate] records the
    diagnostic "only strings, bools, ints, pointers or structs of
    bools/ints are supported as map keys, but got: <type>" and returns
    normally, having ended the lifetime of the value slot; [createMapDelete]
    returns the diagnostic of the same wording as its error and records
    nothing. *)
Theorem unsupported_key_update_records_delete_returns
    (TypeString : types.Type_ -> string) (keyType : types.Type_)
    (m key value : Value) (pos : Pos) (b : builder.state) :
  keyClassOf (types.Underlying keyType) = Unsupported ->
  let diagnostic :=
    builder.mkDiagnostic pos
      ("only strings, bools, ints, pointers or structs of bools/ints are supported as map keys, but got: "
       ++ TypeString (types.Underlying keyType))%string in
  (exists b',
     builder.createMapUpdate TypeString keyType m key value pos b
     = Ok (tt, b')
     /\ builder.diagnostics b' = builder.diagnostics b ++ [diagnostic]
     /\ instrs (builder.Builder_ b')
        = instrs (builder.Builder_ b)
          ++ [IAlloca (typeOf value) "hashmap.value";
              IStore value
                (instResult (nextId (builder.Builder_ b))
                   (PointerType (typeOf value)));
              ILifetimeEnd
                (VPointer (IntegerType 8)
                   (DInst (nextId (builder.Builder_ b)) []))
                (VInt 64 (DSizeOf (typeOf value)))])
  /\ builder.createMapDelete TypeString keyType m key pos b
     = Ok (Some diagnostic, b).
Proof.
  intros Hc diagnostic. unfold keyClassOf in Hc.
  unfold builder.createMapUpdate, builder.createMapDelete.
  destruct (isBasicString (types.Underlying keyType)); [done|].
  destruct (hashmapIsBinaryKey (types.Underlying keyType)); [done|].
  split; [|by destruct b].
  eexists. split; [reflexivity|]. split; [done|].
  simpl. by rewrite <- !app_assoc.
Qed.

(** ** The theorems at sample inputs *)

Lemma collapse_expand_roundtrip_witness :
  typeOf sampleNested
  = StructType [IntegerType 32;
                StructType [PointerType (IntegerType 8); IntegerType 1]]
  /\ exists fields,
       Compiler.expandFormalParam sampleNested = Ok fields
       /\ Compiler.collapseFormalParam (typeOf sampleNested) fields
          = Ok sampleNested.
Proof.
  split; [reflexivity|].
  destruct (collapse_expand_roundtrip (typeOf sampleNested) sampleNested
              eq_refl) as (fields & Hexpand & Hcollapse & _).
  exists fields. split; assumption.
Defined.

Lemma expandFormalParam_at_the_bound_witness :
  (TypeKind_of (typeOf threeFields) = StructTypeKind
   /\ length (flattenAggregateType (typeOf threeFields)) = 3%nat
   /\ exists a b c, builder.expandFormalParam threeFields = Ok [a; b; c])
  /\ (TypeKind_of (typeOf fourFields) = StructTypeKind
      /\ length (flattenAggregateType (typeOf fourFields)) = 4%nat
      /\ builder.expandFormalParam fourFields = Ok [fourFields]).
Proof.
  split.
  - split; [reflexivity|]. split; [reflexivity|].
    destruct (proj1 (expandFormalParam_at_the_bound threeFields eq_refl)
                eq_refl) as (a & b & c & Hexpand & _).
    exists a, b, c. exact Hexpand.
  - split; [reflexivity|]. split; [reflexivity|].
    exact (proj1 (proj2 (expandFormalParam_at_the_bound fourFields eq_refl)
                    eq_refl)).
Defined.

Lemma flattenAggregateTypeOffsets_sums_witness :
  Forall (fun p => (pathOffset sampleLayout sampleStructType p < 2 ^ 64)%Z)
    (leafPaths sampleStructType)
  /\ flattenAggregateTypeOffsets sampleLayout sampleStructType
     = map (pathOffset sampleLayout sampleStructType)
         (leafPaths sampleStructType).
Proof.
  assert (Forall
            (fun p => (pathOffset sampleLayout sampleStructType p < 2 ^ 64)%Z)
            (leafPaths sampleStructType)) as Hfit.
  { repeat constructor. }
  split; [exact Hfit|].
  exact (proj2 (proj2 (proj2
           (flattenAggregateTypeOffsets_sums sampleLayout sampleStructType)))
           Hfit).
Defined.

Lemma hashmapTopHash_nonzero_witness :
  (0 <= 16777215 < 2 ^ 32)%Z
  /\ hashmapTopHash 16777215 <> 0%Z
  /\ hashmapTopHash 16777215 = 1%Z.
Proof.
  assert (0 <= 16777215 < 2 ^ 32)%Z as Hrange by lia.
  split; [exact Hrange|].
  destruct (hashmapTopHash_nonzero 16777215 Hrange) as (Hnz & _ & Hval).
  split; [exact Hnz|]. rewrite Hval. reflexivity.
Defined.

Lemma sampleBuilder_hashmapStringSet :
  builder.mod_ sampleBuilder !! "runtime.hashmapStringSet"
  = Some (runtimeFn "runtime.hashmapStringSet" VoidType).
Proof. reflexivity. Qed.

Lemma sampleBuilder_hashmapStringDelete :
  builder.mod_ sampleBuilder !! "runtime.hashmapStringDelete"
  = Some (runtimeFn "runtime.hashmapStringDelete" VoidType).
Proof. reflexivity. Qed.

Lemma createRuntimeCall_implicit_arguments_witness :
  (builder.mod_ sampleBuilder !! ("runtime." ++ "hashmapStringSet")%string
   = Some (runtimeFn "runtime.hashmapStringSet" VoidType)
   /\ exists call b',
        builder.createRuntimeCall "hashmapStringSet"
          [sampleMap; sampleKey] "" sampleBuilder = Ok (call, b')
        /\ instrs (builder.Builder_ b')
           = instrs (builder.Builder_ sampleBuilder)
             ++ [ICall (runtimeFn "runtime.hashmapStringSet" VoidType)
                   (concat (map expansion [sampleMap; sampleKey])
                    ++ implicitArgs) ""])
  /\ (Compiler.runtimeMembers exportedAlloc !! "alloc"
      = Some (Compiler.MFunction (Compiler.mkFunction (Some allocFn) true))
      /\ exists call c',
           Compiler.createRuntimeCall "alloc" [sampleValue] "" exportedAlloc
           = Ok (call, c')
           /\ instrs (Compiler.builder c')
              = instrs (Compiler.builder exportedAlloc)
                ++ [ICall allocFn
                      (concat (map expansion [sampleValue]) ++ []) ""]).
Proof.
  split.
  - split; [exact sampleBuilder_hashmapStringSet|].
    exact (proj1 (proj2 createRuntimeCall_implicit_arguments)
             sampleBuilder "hashmapStringSet" [sampleMap; sampleKey] ""
             _ sampleBuilder_hashmapStringSet).
  - assert (Compiler.runtimeMembers exportedAlloc !! "alloc"
            = Some (Compiler.MFunction
                      (Compiler.mkFunction (Some allocFn) true))) as Hm
      by reflexivity.
    split; [exact Hm|].
    exact (proj2 (proj2 createRuntimeCall_implicit_arguments)
             exportedAlloc "alloc" [sampleValue] "" _ allocFn Hm eq_refl).
Defined.

Lemma createMapLookup_named_string_diverges_witness :
  builder.mod_ sampleBuilder !! "runtime.hashmapStringSet"
  = Some (runtimeFn "runtime.hashmapStringSet" VoidType)
  /\ builder.mod_ sampleBuilder !! "runtime.hashmapStringDelete"
     = Some (runtimeFn "runtime.hashmapStringDelete" VoidType)
  /\ keyClassOf namedString = Unsupported
  /\ keyClassOf (types.Underlying namedString) = KeyString
  /\ exists b',
       builder.createMapLookup (fun _ => IntegerType 32) sampleTypeString
         namedString (types.Basic types.Int32) sampleMap sampleKey true 7%Z
         sampleBuilder
       = Ok ((None,
              Some (builder.mkDiagnostic 7%Z
                      (builder.unsupportedKey ++ "MyString")%string)),
             b').
Proof.
  split; [exact sampleBuilder_hashmapStringSet|].
  split; [exact sampleBuilder_hashmapStringDelete|].
  destruct (createMapLookup_named_string_diverges
              (fun _ => IntegerType 32) sampleTypeString "MyString"
              (types.Basic types.Int32) sampleMap sampleKey sampleValue true
              7%Z sampleBuilder _ _
              sampleBuilder_hashmapStringSet
              sampleBuilder_hashmapStringDelete)
    as (Hlookup & Hothers & (b' & Hrun & _) & _).
  split; [exact Hlookup|]. split; [exact Hothers|].
  exists b'. exact Hrun.
Defined.

Lemma keyClassOf_named_string_diverges_witness :
  containsInterface interfaceKey = true
  /\ isNamed (types.Underlying namedString) = false
  /\ keyClassOf interfaceKey = Unsupported
  /\ keyClassOf (types.Underlying namedString) = specKeyClass namedString.
Proof.
  destruct keyClassOf_named_string_diverges
    as (_ & _ & _ & _ & Hinterface & Hunderlying & _).
  split; [reflexivity|]. split; [reflexivity|]. split.
  - exact (proj2 (Hinterface interfaceKey eq_refl)).
  - exact (Hunderlying namedString eq_refl).
Defined.

Lemma unsupported_key_update_records_delete_returns_witness :
  keyClassOf (types.Underlying interfaceKey) = Unsupported
  /\ (exists b',
        builder.createMapUpdate sampleTypeString interfaceKey sampleMap
          sampleKey sampleValue 7%Z sampleBuilder = Ok (tt, b')
        /\ builder.diagnostics b'
           = [builder.mkDiagnostic 7%Z
                "only strings, bools, ints, pointers or structs of bools/ints are supported as map keys, but got: struct{i interface{}}"])
  /\ builder.createMapDelete sampleTypeString interfaceKey sampleMap
       sampleKey 7%Z sampleBuilder
     = Ok (Some (builder.mkDiagnostic 7%Z
                   "only strings, bools, ints, pointers or structs of bools/ints are supported as map keys, but got: struct{i interface{}}"),
           sampleBuilder).
Proof.
  split; [reflexivity|].
  destruct (unsupported_key_update_records_delete_returns sampleTypeString
              interfaceKey sampleMap sampleKey sampleValue 7%Z sampleBuilder
              eq_refl) as ((b' & Hrun & Hdiag & _) & Hdelete).
  split; [|exact Hdelete].
  exists b'. split; [exact Hrun|exact Hdiag].
Defined.

(** ** The code on small inputs *)

Example flattenAggregateType_sample :
  flattenAggregateType sampleStructType
  = [IntegerType 64; IntegerType 64; IntegerType 64].
Proof. reflexivity. Qed.

Example flattenAggregateTypeOffsets_sample :
  flattenAggregateTypeOffsets sampleLayout sampleStructType = [0; 8; 16]%Z.
Proof. reflexivity. Qed.

Example expandFormalParam_sampleNested :
  Compiler.expandFormalParam sampleNested
  = Ok [VInt 32 (DInst 0 []); VPointer (IntegerType 8) DZero; VInt 1 DUndef].
Proof. reflexivity. Qed.

Example collapseFormalParam_sampleNested :
  Compiler.collapseFormalParam (typeOf sampleNested)
    [VInt 32 (DInst 0 []); VPointer (IntegerType 8) DZero; VInt 1 DUndef]
  = Ok sampleNested.
Proof. reflexivity. Qed.

Example collapseFormalParam_leftover :
  Compiler.collapseFormalParam (IntegerType 32)
    [VInt 32 DZero; VInt 32 DZero]
  = Panic "failed to expand back all fields".
Proof. reflexivity. Qed.

Example expandFormalParam_empty_struct :
  Compiler.expandFormalParam (VStruct []) = Ok []
  /\ Compiler.collapseFormalParam (StructType []) [] = Ok (VStruct []).
Proof. split; reflexivity. Qed.

Example hashmapTopHash_top_byte :
  hashmapTopHash 2868903936 = 171%Z /\ hashmapTopHash 0 = 1%Z.
Proof. split; reflexivity. Qed.

Example hashmapIsBinaryKey_samples :
  hashmapIsBinaryKey
    (types.Struct [("a", types.Basic types.Int); ("b", types.Basic types.Bool)])
  = true
  /\ hashmapIsBinaryKey (types.Basic types.String) = false
  /\ hashmapIsBinaryKey (types.Basic types.UnsafePointer) = false
  /\ hashmapIsBinaryKey (types.Array interfaceKey 4) = false
  /\ hashmapIsBinaryKey (types.Named "ID" (types.Basic types.Uint64)) = true.
Proof. repeat split; reflexivity. Qed.

Example createRuntimeCall_missing :
  builder.createRuntimeCall "hashmapNext" [] "" sampleBuilder
  = Panic "trying to call non-existing function: runtime.hashmapNext".
Proof. reflexivity. Qed.

Example newMultiError_samples :
  newMultiError [otherError "a"; otherError "b"]
  = Ok (MultiError [otherError "a"; otherError "b"])
  /\ Error (MultiError [otherError "a"; otherError "b"]) = Ok "a"
  /\ newMultiError [otherError "a"] = Ok (otherError "a").
Proof. repeat split; reflexivity. Qed.

(** * Further properties of the code *)

(** ** Expanded types, values and offsets together *)

Lemma flattenAggregateType_all_elementary (t : Type_) :
  Forall (fun u => TypeKind_of u <> StructTypeKind) (flattenAggregateType t).
Proof.
  induction t as [t Ht | elems IH] using Type_struct_ind.
  - rewrite flattenAggregateType_elementary by done. by constructor.
  - rewrite flattenAggregateType_struct.
    induction IH as [|t ts Ht _ IHts]; simpl; [constructor|].
    by apply Forall_app.
Qed.

Lemma expansion_types (v : Value) :
  map typeOf (expansion v) = expandFormalParamType (typeOf v).
Proof.
  unfold expansion, expandFormalParamType.
  destruct (TypeKind_of (typeOf v)); try done.
  destruct (_ <=? _)%nat; [|done]. apply flattenAggregate_types.
Qed.

(** X1. The values [expandFormalParam] returns for [v] have, one by one,
    the types [expandFormalParamType] returns for the type of [v], in both
    copies of the function: an expanded argument fits the expanded
    parameter list. *)
Theorem expandFormalParam_fits_expandFormalParamType (v : Value) :
  exists fields,
    builder.expandFormalParam v = Ok fields
    /\ Compiler.expandFormalParam v = Ok fields
    /\ map typeOf fields = expandFormalParamType (typeOf v).
Proof.
  exists (expansion v).
  split; [apply expandFormalParam_expansion|].
  split; [apply expandFormalParam_expansion|apply expansion_types].
Qed.

Lemma expandFormalParamType_shape_aux (t : Type_) :
  (length (expandFormalParamType t) <= MaxFieldsPerParam)%nat
  /\ (expandFormalParamType t = [t]
      \/ TypeKind_of t = StructTypeKind
         /\ expandFormalParamType t = flattenAggregateType t).
Proof.
  unfold expandFormalParamType.
  destruct (TypeKind_of t) eqn:Hk;
    try (split; [unfold MaxFieldsPerParam; simpl; lia|by left]).
  destruct (length (flattenAggregateType t) <=? MaxFieldsPerParam)%nat
    eqn:Hle.
  - apply Nat.leb_le in Hle. split; [done|]. by right.
  - split; [unfold MaxFieldsPerParam; simpl; lia|by left].
Qed.

(** X2. [expandFormalParamType] returns at most [MaxFieldsPerParam] types,
    and either the type itself alone or, for a struct, its flattened
    fields, none of which is a struct. *)
Theorem expandFormalParamType_shape (t : Type_) :
  (length (expandFormalParamType t) <= MaxFieldsPerParam)%nat
  /\ (expandFormalParamType t = [t]
      \/ TypeKind_of t = StructTypeKind
         /\ expandFormalParamType t = flattenAggregateType t
         /\ Forall (fun u => TypeKind_of u <> StructTypeKind)
              (expandFormalParamType t)).
Proof.
  unfold expandFormalParamType.
  destruct (TypeKind_of t) eqn:Hk;
    try (split; [unfold MaxFieldsPerParam; simpl; lia|by left]).
  destruct (length (flattenAggregateType t) <=? MaxFieldsPerParam)%nat
    eqn:Hle.
  - apply Nat.leb_le in Hle. split; [done|]. right.
    split; [done|]. split; [done|]. apply flattenAggregateType_all_elementary.
  - split; [unfold MaxFieldsPerParam; simpl; lia|by left].
Qed.

(** X3. [expandFormalParamOffsets] returns one offset for each type
    [expandFormalParamType] returns.  For an expanded struct the offset at
    each position is the 64-bit sum of the byte offsets along the path to
    the field whose type stands at that position; otherwise the only
    offset is 0 and the only type is the type itself. *)
Theorem expandFormalParamOffsets_pairs_with_types
    (ElementOffset : Type_ -> nat -> Z) (t : Type_) :
  length (expandFormalParamOffsets ElementOffset t)
  = length (expandFormalParamType t)
  /\ (expandFormalParamOffsets ElementOffset t
      = map (fun p => wrap64 (pathOffset ElementOffset t p)) (leafPaths t)
      /\ expandFormalParamType t = map (typeAt t) (leafPaths t)
      \/ expandFormalParamOffsets ElementOffset t = [0%Z]
         /\ expandFormalParamType t = [t]).
Proof.
  unfold expandFormalParamOffsets, expandFormalParamType.
  destruct (TypeKind_of t) eqn:Hk; try (split; [done|by right]).
  assert (length (flattenAggregateTypeOffsets ElementOffset t)
          = length (flattenAggregateType t)) as Hlen.
  { rewrite flattenAggregateTypeOffsets_paths, <- leafPaths_types.
    by rewrite !length_map. }
  rewrite Hlen.
  destruct (length (flattenAggregateType t) <=? MaxFieldsPerParam)%nat.
  - split; [done|]. left.
    by rewrite flattenAggregateTypeOffsets_paths, leafPaths_types.
  - split; [done|by right].
Qed.

(** ** How many fields [collapseFormalParam] takes *)

Lemma expandFormalParamType_within_bound (t : Type_) :
  (length (flattenAggregateType t) <= MaxFieldsPerParam)%nat ->
  expandFormalParamType t = flattenAggregateType t.
Proof.
  intros Hle. unfold expandFormalParamType.
  destruct (TypeKind_of t) eqn:Hk;
    try (by rewrite flattenAggregateType_elementary by (by rewrite Hk)).
  by rewrite (proj2 (Nat.leb_le _ _) Hle).
Qed.

Lemma expandFormalParamType_over_bound (t : Type_) :
  (MaxFieldsPerParam < length (flattenAggregateType t))%nat ->
  expandFormalParamType t = [t].
Proof.
  intros Hlt. unfold expandFormalParamType.
  destruct (TypeKind_of t); try done.
  by rewrite (proj2 (Nat.leb_gt _ _) Hlt).
Qed.

Lemma takesFields_one (t : Type_) :
  TypeKind_of t <> StructTypeKind
  \/ (MaxFieldsPerParam < length (flattenAggregateType t))%nat ->
  takesFields t 1.
Proof.
  intros Hone fields. destruct fields as [|f rest]; simpl.
  - split; [intros _|lia].
    destruct Hone as [Hk|Hlt]; [by destruct t|].
    destruct t; try done. rewrite collapseFormalParamInternal_struct.
    by rewrite (proj2 (Nat.leb_gt _ _) Hlt).
  - split; [lia|intros _]. exists f.
    by apply collapseFormalParamInternal_one.
Qed.

Lemma collapseFields_takes (ts : list Type_) :
  Forall (fun t => takesFields t (length (flattenAggregateType t))) ts ->
  forall (i : nat) (value : Value) (fields : list Value),
    ((length fields < length (concat (map flattenAggregateType ts)))%nat ->
     collapseFields i ts value fields = Panic sliceBoundsOutOfRange)
    /\ ((length (concat (map flattenAggregateType ts)) <= length fields)%nat ->
        exists v,
          collapseFields i ts value fields
          = Ok (v, drop (length (concat (map flattenAggregateType ts)))
                     fields)).
Proof.
  induction 1 as [|t ts Ht _ IH]; intros i value fields; simpl.
  - split; [lia|]. intros _. by exists value.
  - rewrite length_app. destruct (Ht fields) as [Hshort Hlong].
    destruct (Nat.lt_ge_cases (length fields)
                (length (flattenAggregateType t))) as [Hlt|Hge].
    + split; [|lia]. intros _. by rewrite Hshort.
    + destruct (Hlong Hge) as [v ->]. simpl.
      destruct (IH (S i) (CreateInsertValue value v i)
                  (drop (length (flattenAggregateType t)) fields))
        as [IHshort IHlong].
      rewrite length_drop in IHshort, IHlong.
      split; intros Hlen.
      * apply IHshort. lia.
      * destruct IHlong as [v' ->]; [lia|]. exists v'.
        by rewrite drop_drop.
Qed.

Lemma collapseFormalParamInternal_takes (t : Type_) :
  takesFields t (length (expandFormalParamType t)).
Proof.
  induction t as [t Ht | elems IH] using Type_struct_ind.
  - unfold expandFormalParamType.
    replace (match TypeKind_of t with
             | StructTypeKind => _
             | _ => [t]
             end) with [t] by (by destruct (TypeKind_of t)).
    apply takesFields_one. by left.
  - destruct (Nat.le_gt_cases (length (flattenAggregateType (StructType elems)))
                MaxFieldsPerParam) as [Hle|Hgt].
    + rewrite expandFormalParamType_within_bound by done.
      intros fields. rewrite collapseFormalParamInternal_struct.
      rewrite (proj2 (Nat.leb_le _ _) Hle), flattenAggregateType_struct.
      apply collapseFields_takes.
      rewrite Forall_forall in IH. apply Forall_forall. intros t Hin.
      rewrite <- (expandFormalParamType_within_bound t); [by apply IH|].
      etrans; [|exact Hle]. apply flattenAggregateType_field_le.
      by apply list_elem_of_In.
    + rewrite expandFormalParamType_over_bound by done.
      apply takesFields_one. by right.
Qed.

(** X4. Given fewer fields than [expandFormalParamType t] has types, each
    of the type at its position, [collapseFormalParam] at [t] panics as the
    Go runtime does on [fields[0], fields[1:]] of an empty slice; given a
    field of each of these types followed by at least one more value, it
    panics with "failed to expand back all fields". *)
Theorem collapseFormalParam_arity (t : Type_) (fields : list Value) :
  ((length fields < length (expandFormalParamType t))%nat ->
   map typeOf fields = take (length fields) (expandFormalParamType t) ->
   Compiler.collapseFormalParam t fields = Panic sliceBoundsOutOfRange)
  /\ (forall extra : list Value,
        map typeOf fields = expandFormalParamType t ->
        extra <> [] ->
        Compiler.collapseFormalParam t (fields ++ extra)
        = Panic "failed to expand back all fields").
Proof.
  unfold Compiler.collapseFormalParam. split.
  - intros Hlen _.
    by rewrite (proj1 (collapseFormalParamInternal_takes t fields) Hlen).
  - intros extra Hty Hextra.
    assert (length (expandFormalParamType t) = length fields) as Hn
      by (by rewrite <- Hty, length_map).
    destruct (proj2 (collapseFormalParamInternal_takes t (fields ++ extra)))
      as [v ->]; [rewrite length_app; lia|].
    rewrite Hn, drop_app_length. simpl.
    by destruct extra.
Qed.

Lemma collapseFormalParam_arity_witness :
  (length [VInt 32 DZero; VInt 32 DUndef]
   < length (expandFormalParamType (typeOf threeFields)))%nat
  /\ Compiler.collapseFormalParam (typeOf threeFields)
       [VInt 32 DZero; VInt 32 DUndef]
     = Panic sliceBoundsOutOfRange
  /\ Compiler.collapseFormalParam (typeOf threeFields)
       ([VInt 32 DZero; VInt 32 DUndef; VInt 8 DZero] ++ [sampleValue])
     = Panic "failed to expand back all fields".
Proof.
  assert (length [VInt 32 DZero; VInt 32 DUndef]
          < length (expandFormalParamType (typeOf threeFields)))%nat as Hlen
    by (simpl; lia).
  split; [exact Hlen|]. split.
  - exact (proj1 (collapseFormalParam_arity (typeOf threeFields)
                    [VInt 32 DZero; VInt 32 DUndef]) Hlen eq_refl).
  - apply (proj2 (collapseFormalParam_arity (typeOf threeFields)
                    [VInt 32 DZero; VInt 32 DUndef; VInt 8 DZero])
             [sampleValue] eq_refl).
    discriminate.
Defined.

(** ** Expansion after collapse *)

Lemma flattenAggregate_elementary_type (v : Value) :
  TypeKind_of (typeOf v) <> StructTypeKind -> builder.flattenAggregate v = [v].
Proof. intros Hk. by destruct (flattenAggregate_elementary v Hk). Qed.

(** The loop rebuilds, from fields of the flattened types, field values of
    the element types that flatten back to the fields given. *)
Lemma collapseFields_typed (ts : list Type_) :
  Forall (fun t => forall fields rest,
            map typeOf fields = flattenAggregateType t ->
            exists v,
              Compiler.collapseFormalParamInternal t (fields ++ rest)
              = Ok (v, rest)
              /\ typeOf v = t /\ builder.flattenAggregate v = fields) ts ->
  forall (pre zs fields rest : list Value),
    length zs = length ts ->
    map typeOf fields = concat (map flattenAggregateType ts) ->
    exists vs,
      collapseFields (length pre) ts (VStruct (pre ++ zs)) (fields ++ rest)
      = Ok (VStruct (pre ++ vs), rest)
      /\ map typeOf vs = ts
      /\ concat (map builder.flattenAggregate vs) = fields.
Proof.
  induction 1 as [|t ts Ht _ IH]; intros pre zs fields rest Hlen Hty.
  - destruct zs; [|discriminate]. destruct fields; [|discriminate].
    by exists [].
  - destruct zs as [|z zs]; [discriminate|]. simpl in Hlen, Hty.
    apply map_eq_app in Hty as (fs1 & fs2 & -> & Hty1 & Hty2).
    destruct (Ht fs1 (fs2 ++ rest) Hty1) as (v & Hrun & Htv & Hfv).
    destruct (IH (pre ++ [v]) zs fs2 rest ltac:(lia) Hty2)
      as (vs & Hloop & Htvs & Hfvs).
    exists (v :: vs). simpl. rewrite <- app_assoc, Hrun. simpl.
    replace (<[length pre := v]> (pre ++ z :: zs)) with ((pre ++ [v]) ++ zs).
    + rewrite length_app in Hloop. simpl in Hloop.
      rewrite Nat.add_1_r in Hloop. rewrite Hloop.
      split; [by rewrite <- app_assoc|]. by rewrite Htv, Htvs, Hfv, Hfvs.
    + rewrite insert_app_r_alt by lia. rewrite Nat.sub_diag. simpl.
      by rewrite <- app_assoc.
Qed.

Lemma collapseFormalParamInternal_typed (t : Type_) :
  (length (flattenAggregateType t) <= MaxFieldsPerParam)%nat ->
  forall fields rest,
    map typeOf fields = flattenAggregateType t ->
    exists v,
      Compiler.collapseFormalParamInternal t (fields ++ rest) = Ok (v, rest)
      /\ typeOf v = t /\ builder.flattenAggregate v = fields.
Proof.
  induction t as [t Ht | elems IH] using Type_struct_ind;
    intros Hle fields rest Hty.
  - rewrite flattenAggregateType_elementary in Hty by done.
    destruct fields as [|f [|]]; try discriminate.
    injection Hty as Hf. exists f. simpl.
    rewrite collapseFormalParamInternal_one by (by left).
    split; [done|]. split; [done|].
    apply flattenAggregate_elementary_type. by rewrite Hf.
  - rewrite collapseFormalParamInternal_struct.
    rewrite (proj2 (Nat.leb_le _ _) Hle).
    rewrite flattenAggregateType_struct in Hty.
    unfold ConstNull. rewrite valueOf_struct.
    destruct (collapseFields_typed elems) with
      (pre := @nil Value) (zs := valueOfFields (fun _ => DZero) 0 elems)
      (fields := fields) (rest := rest) as (vs & Hloop & Htvs & Hfvs).
    + rewrite Forall_forall in IH. apply Forall_forall.
      intros t Hin fields' rest' Hty'. apply IH; [done| |done].
      etrans; [|exact Hle]. apply flattenAggregateType_field_le.
      by apply list_elem_of_In.
    + apply valueOfFields_length.
    + done.
    + exists (VStruct vs). split; [exact Hloop|].
      split; [simpl; by rewrite Htvs|].
      by rewrite builder_flattenAggregate_struct.
Qed.

(** X5. Fields whose types are, one by one, the types
    [expandFormalParamType t] returns are collapsed by [collapseFormalParam]
    into a value of type [t], and [expandFormalParam] of that value returns
    the fields again. *)
Theorem expand_collapse_roundtrip (t : Type_) (fields : list Value) :
  map typeOf fields = expandFormalParamType t ->
  exists v,
    Compiler.collapseFormalParam t fields = Ok v
    /\ typeOf v = t
    /\ Compiler.expandFormalParam v = Ok fields.
Proof.
  intros Hty. unfold Compiler.collapseFormalParam.
  destruct (Nat.le_gt_cases (length (flattenAggregateType t))
              MaxFieldsPerParam) as [Hle|Hgt].
  - rewrite expandFormalParamType_within_bound in Hty by done.
    destruct (collapseFormalParamInternal_typed t Hle fields [] Hty)
      as (v & Hrun & Htv & Hfv).
    rewrite app_nil_r in Hrun. exists v. rewrite Hrun. simpl.
    split; [done|]. split; [done|].
    change (Compiler.expandFormalParam v) with (builder.expandFormalParam v).
    rewrite expandFormalParam_expansion. f_equal.
    unfold expansion. rewrite Htv.
    destruct (TypeKind_of t) eqn:Hk;
      try (rewrite <- Hfv; apply eq_sym, flattenAggregate_elementary_type;
           by rewrite Htv, Hk).
    by rewrite (proj2 (Nat.leb_le _ _) Hle).
  - rewrite expandFormalParamType_over_bound in Hty by done.
    destruct fields as [|f [|]]; try discriminate. injection Hty as Hf.
    exists f. rewrite collapseFormalParamInternal_one by (by right). simpl.
    split; [done|]. split; [done|].
    change (Compiler.expandFormalParam f) with (builder.expandFormalParam f).
    rewrite expandFormalParam_expansion. f_equal.
    unfold expansion. rewrite Hf.
    destruct (TypeKind_of t); try done.
    by rewrite (proj2 (Nat.leb_gt _ _) Hgt).
Qed.

Lemma expand_collapse_roundtrip_witness :
  map typeOf [VInt 32 DUndef; VPointer (IntegerType 8) DZero; VInt 1 DZero]
  = expandFormalParamType (typeOf sampleNested)
  /\ exists v,
       Compiler.collapseFormalParam (typeOf sampleNested)
         [VInt 32 DUndef; VPointer (IntegerType 8) DZero; VInt 1 DZero]
       = Ok v
       /\ typeOf v = typeOf sampleNested.
Proof.
  split; [reflexivity|].
  destruct (expand_collapse_roundtrip (typeOf sampleNested)
              [VInt 32 DUndef; VPointer (IntegerType 8) DZero; VInt 1 DZero]
              eq_refl) as (v & Hrun & Hty & _).
  exists v. split; assumption.
Defined.

(** ** Calls *)

Lemma expansion_concat_types (args : list Value) :
  map typeOf (concat (map expansion args))
  = concat (map expandFormalParamType (map typeOf args)).
Proof.
  induction args as [|arg args IH]; simpl; [done|].
  by rewrite map_app, expansion_types, IH.
Qed.

Lemma expansion_concat_length (args : list Value) :
  (length (concat (map expansion args)) <= MaxFieldsPerParam * length args)%nat.
Proof.
  induction args as [|arg args IH]; simpl; [lia|].
  rewrite length_app.
  pose proof (proj1 (expandFormalParamType_shape_aux (typeOf arg))) as Hle.
  rewrite <- expansion_types, length_map in Hle.
  unfold MaxFieldsPerParam in *. lia.
Qed.

(** X6. [createCall] never panics: for every function and argument list
    both copies return a value of the return type of the function, and the
    last instruction they emit is the call of the function, whose
    arguments have, in order, the types [expandFormalParamType] gives for
    the types of the arguments, at most [MaxFieldsPerParam] per argument.
    What was emitted before stays, and so do the module and the
    diagnostics. *)
Theorem createCall_emits_expanded_call (fn : Value) (args : list Value)
    (name : string) :
  exists expanded,
    map typeOf expanded
    = concat (map expandFormalParamType (map typeOf args))
    /\ (length expanded <= MaxFieldsPerParam * length args)%nat
    /\ (forall b : builder.state,
          exists call b' emitted,
            builder.createCall fn args name b = Ok (call, b')
            /\ typeOf call = returnType fn
            /\ instrs (builder.Builder_ b')
               = instrs (builder.Builder_ b) ++ emitted
            /\ last emitted = Some (ICall fn expanded name)
            /\ builder.mod_ b' = builder.mod_ b
            /\ builder.diagnostics b' = builder.diagnostics b)
    /\ (forall c : Compiler.state,
          exists call c' emitted,
            Compiler.createCall fn args name c = Ok (call, c')
            /\ typeOf call = returnType fn
            /\ instrs (Compiler.builder c')
               = instrs (Compiler.builder c) ++ emitted
            /\ last emitted = Some (ICall fn expanded name)
            /\ Compiler.runtimeMembers c' = Compiler.runtimeMembers c).
Proof.
  exists (concat (map expansion args)).
  split; [apply expansion_concat_types|].
  split; [apply expansion_concat_length|]. split.
  - intros b. unfold builder.createCall.
    rewrite builder_expandArgs_expansion. simpl.
    eexists _, _, [_]. split; [reflexivity|].
    split; [apply typeOf_valueOf|]. by repeat split.
  - intros c. unfold Compiler.createCall.
    rewrite Compiler_expandArgs_expansion. simpl.
    eexists _, _, [_]. split; [reflexivity|].
    split; [apply typeOf_valueOf|]. by repeat split.
Qed.

(** X7. [builder.createRuntimeCall] returns exactly when the module
    declares [runtime.<fnName>], and [Compiler.createRuntimeCall] exactly
    when the package [runtime] has a function member [fnName] that appears
    in LLVM IR; otherwise they panic. *)
Theorem createRuntimeCall_returns_iff (fnName : string) (args : list Value)
    (name : string) :
  (forall b : builder.state,
     (exists r, builder.createRuntimeCall fnName args name b = Ok r)
     <-> exists fn, builder.mod_ b !! ("runtime." ++ fnName)%string = Some fn)
  /\ (forall b : builder.state,
        builder.mod_ b !! ("runtime." ++ fnName)%string = None ->
        builder.createRuntimeCall fnName args name b
        = Panic ("trying to call non-existing function: runtime."
                 ++ fnName)%string)
  /\ (forall c : Compiler.state,
        (exists r, Compiler.createRuntimeCall fnName args name c = Ok r)
        <-> exists fn llvmFn,
              Compiler.runtimeMembers c !! fnName
              = Some (Compiler.MFunction fn)
              /\ Compiler.LLVMFn fn = Some llvmFn)
  /\ (forall c : Compiler.state,
        Compiler.runtimeMembers c !! fnName = None ->
        Compiler.createRuntimeCall fnName args name c
        = Panic ("trying to call runtime." ++ fnName)%string).
Proof.
  split; [|split; [|split]].
  - intros b. split.
    + intros [r Hr]. unfold builder.createRuntimeCall in Hr.
      destruct (builder.mod_ b !! _) as [fn|]; [by exists fn|discriminate].
    + intros [fn Hfn].
      rewrite (builder_createRuntimeCall_run b fnName args name fn Hfn).
      by eexists.
  - intros b Hnone. unfold builder.createRuntimeCall. by rewrite Hnone.
  - intros c. split.
    + intros [r Hr]. unfold Compiler.createRuntimeCall in Hr.
      destruct (Compiler.runtimeMembers c !! fnName) as [[fn|]|];
        try discriminate.
      destruct (Compiler.LLVMFn fn) as [llvmFn|] eqn:Hfn; [|discriminate].
      by exists fn, llvmFn.
    + intros (fn & llvmFn & Hm & Hfn).
      rewrite (Compiler_createRuntimeCall_run c fnName args name fn llvmFn
                 Hm Hfn).
      by eexists.
  - intros c Hnone. unfold Compiler.createRuntimeCall. by rewrite Hnone.
Qed.

Lemma createRuntimeCall_returns_iff_witness :
  builder.mod_ sampleBuilder !! ("runtime." ++ "hashmapNext")%string = None
  /\ builder.createRuntimeCall "hashmapNext" [sampleMap] "" sampleBuilder
     = Panic "trying to call non-existing function: runtime.hashmapNext"
  /\ Compiler.runtimeMembers exportedAlloc !! "free" = None
  /\ Compiler.createRuntimeCall "free" [sampleMap] "" exportedAlloc
     = Panic "trying to call runtime.free".
Proof.
  assert (builder.mod_ sampleBuilder !! ("runtime." ++ "hashmapNext")%string
          = None) as Hb by reflexivity.
  assert (Compiler.runtimeMembers exportedAlloc !! "free" = None) as Hc
    by reflexivity.
  split; [exact Hb|]. split.
  - exact (proj1 (proj2 (createRuntimeCall_returns_iff "hashmapNext"
                           [sampleMap] "")) sampleBuilder Hb).
  - split; [exact Hc|].
    exact (proj2 (proj2 (proj2 (createRuntimeCall_returns_iff "free"
                                  [sampleMap] ""))) exportedAlloc Hc).
Defined.

(** ** Which map operations report an unsupported key *)

Lemma createMapDelete_unsupported (TypeString : types.Type_ -> string)
    (keyType : types.Type_) (m key : Value) (pos : Pos) (b : builder.state) :
  keyClassOf (types.Underlying keyType) = Unsupported ->
  builder.createMapDelete TypeString keyType m key pos b
  = Ok (Some (builder.mkDiagnostic pos
                (builder.unsupportedKey
                 ++ TypeString (types.Underlying keyType))%string), b).
Proof.
  unfold keyClassOf, builder.createMapDelete. intros Hc.
  destruct (isBasicString (types.Underlying keyType)); [done|].
  by destruct (hashmapIsBinaryKey (types.Underlying keyType)).
Qed.

Lemma createMapDelete_error_inv (TypeString : types.Type_ -> string)
    (keyType : types.Type_) (m key : Value) (pos : Pos)
    (b b' : builder.state) (d : builder.Diagnostic) :
  builder.createMapDelete TypeString keyType m key pos b = Ok (Some d, b') ->
  keyClassOf (types.Underlying keyType) = Unsupported.
Proof.
  unfold keyClassOf, builder.createMapDelete.
  destruct (isBasicString (types.Underlying keyType)).
  - unfold builder.bind.
    by destruct (builder.createRuntimeCall _ _ _ _) as [[? ?]|].
  - destruct (hashmapIsBinaryKey (types.Underlying keyType)); [|done].
    unfold builder.bind, builder.createTemporaryAlloca, builder.instr,
      builder.emitLifetimeEnd, builder.ret.
    cbn [rbind fst snd].
    by destruct (builder.createRuntimeCall _ _ _ _) as [[? ?]|].
Qed.

Lemma createMapLookup_error_inv (getLLVMType : types.Type_ -> Type_)
    (TypeString : types.Type_ -> string) (keyType valueType : types.Type_)
    (m key : Value) (commaOk : bool) (pos : Pos) (b b' : builder.state)
    (v : option Value) (d : builder.Diagnostic) :
  builder.createMapLookup getLLVMType TypeString keyType valueType m key
    commaOk pos b = Ok ((v, Some d), b') ->
  keyClassOf keyType = Unsupported.
Proof.
  unfold keyClassOf, builder.createMapLookup.
  destruct (isBasicString keyType).
  - unfold builder.bind, builder.createTemporaryAlloca, builder.instr,
      builder.emitLifetimeEnd, builder.ret.
    cbn [rbind fst snd].
    destruct (builder.createRuntimeCall _ _ _ _) as [[? ?]|]; [|done].
    simpl. by destruct commaOk.
  - destruct (hashmapIsBinaryKey keyType); [|done].
    unfold builder.bind, builder.createTemporaryAlloca, builder.instr,
      builder.emitLifetimeEnd, builder.ret.
    cbn [rbind fst snd].
    destruct (builder.createRuntimeCall _ _ _ _) as [[? ?]|]; [|done].
    simpl. by destruct commaOk.
Qed.

(** X8. [createMapDelete] returns an error exactly when the underlying key
    type is neither a basic string nor a binary key; the error is then the
    diagnostic of an unsupported key at [pos] and nothing is emitted or
    recorded.  When the underlying type is not itself a named type, these
    are the key types of the class [Unsupported]. *)
Theorem createMapDelete_error_iff (TypeString : types.Type_ -> string)
    (keyType : types.Type_) (m key : Value) (pos : Pos)
    (b b' : builder.state) (d : builder.Diagnostic) :
  (builder.createMapDelete TypeString keyType m key pos b = Ok (Some d, b')
   <-> isBasicString (types.Underlying keyType) = false
       /\ hashmapIsBinaryKey (types.Underlying keyType) = false
       /\ d = builder.mkDiagnostic pos
                (builder.unsupportedKey
                 ++ TypeString (types.Underlying keyType))%string
       /\ b' = b)
  /\ (isNamed (types.Underlying keyType) = false ->
      (isBasicString (types.Underlying keyType) = false
       /\ hashmapIsBinaryKey (types.Underlying keyType) = false)
      <-> specKeyClass keyType = Unsupported).
Proof.
  assert (keyClassOf (types.Underlying keyType) = Unsupported
          <-> isBasicString (types.Underlying keyType) = false
              /\ hashmapIsBinaryKey (types.Underlying keyType) = false)
    as Hclass.
  { unfold keyClassOf.
    destruct (isBasicString _), (hashmapIsBinaryKey _); split; try done;
      by intros []. }
  split.
  - split.
    + intros Hrun.
      pose proof (createMapDelete_error_inv _ _ _ _ _ _ _ _ Hrun) as Hc.
      rewrite createMapDelete_unsupported in Hrun by done.
      injection Hrun as <- <-. by apply Hclass in Hc as [].
    + intros (Hs & Hb & -> & ->).
      apply createMapDelete_unsupported. by apply Hclass.
  - intros Hn. rewrite <- Hclass, keyClassOf_specKeyClass by done.
    by rewrite specKeyClass_Underlying.
Qed.

Lemma createMapDelete_error_iff_witness :
  isNamed (types.Underlying interfaceKey) = false
  /\ specKeyClass interfaceKey = Unsupported
  /\ builder.createMapDelete sampleTypeString interfaceKey sampleMap
       sampleKey 7%Z sampleBuilder
     = Ok (Some (builder.mkDiagnostic 7%Z
                   (builder.unsupportedKey
                    ++ sampleTypeString (types.Underlying interfaceKey))%string),
           sampleBuilder).
Proof.
  destruct (createMapDelete_error_iff sampleTypeString interfaceKey
              sampleMap sampleKey 7%Z sampleBuilder sampleBuilder
              (builder.mkDiagnostic 7%Z
                 (builder.unsupportedKey
                  ++ sampleTypeString (types.Underlying interfaceKey))%string))
    as [[_ Hrun] Hspec].
  split; [reflexivity|]. split.
  - apply (proj1 (Hspec eq_refl)). split; reflexivity.
  - apply Hrun. repeat split; reflexivity.
Defined.

(** X9. [createMapLookup] returns an error exactly when the key type as
    given is neither a basic string nor a binary key.  It then returns no
    value, and has emitted the allocation of the value slot and nothing
    else: the lifetime of that slot is not ended on this path. *)
Theorem createMapLookup_error_iff (getLLVMType : types.Type_ -> Type_)
    (TypeString : types.Type_ -> string) (keyType valueType : types.Type_)
    (m key : Value) (commaOk : bool) (pos : Pos) (b b' : builder.state)
    (v : option Value) (d : builder.Diagnostic) :
  builder.createMapLookup getLLVMType TypeString keyType valueType m key
    commaOk pos b = Ok ((v, Some d), b')
  <-> isBasicString keyType = false
      /\ hashmapIsBinaryKey keyType = false
      /\ v = None
      /\ d = builder.mkDiagnostic pos
               (builder.unsupportedKey ++ TypeString keyType)%string
      /\ b' = builder.mkState (builder.mod_ b)
                (emit (IAlloca (getLLVMType valueType) "hashmap.value")
                   (builder.Builder_ b))
                (builder.diagnostics b).
Proof.
  assert (keyClassOf keyType = Unsupported
          <-> isBasicString keyType = false
              /\ hashmapIsBinaryKey keyType = false) as Hclass.
  { unfold keyClassOf.
    destruct (isBasicString _), (hashmapIsBinaryKey _); split; try done;
      by intros []. }
  split.
  - intros Hrun.
    pose proof (createMapLookup_error_inv _ _ _ _ _ _ _ _ _ _ _ _ Hrun) as Hc.
    rewrite createMapLookup_unsupported in Hrun by done.
    injection Hrun as <- <- <-. by apply Hclass in Hc as [].
  - intros (Hs & Hb & -> & -> & ->).
    apply createMapLookup_unsupported. by apply Hclass.
Qed.

(** X10. On every key type other than a named type that names a basic
    string type, [createMapLookup] returns an error exactly when
    [createMapDelete] does. *)
Theorem createMapLookup_createMapDelete_agree
    (getLLVMType : types.Type_ -> Type_) (TypeString : types.Type_ -> string)
    (keyType valueType : types.Type_) (m key : Value) (commaOk : bool)
    (pos : Pos) (b : builder.state) :
  (isNamed keyType && isBasicString (types.Underlying keyType)) = false ->
  (exists v d b',
     builder.createMapLookup getLLVMType TypeString keyType valueType m key
       commaOk pos b = Ok ((v, Some d), b'))
  <-> (exists d b',
         builder.createMapDelete TypeString keyType m key pos b
         = Ok (Some d, b')).
Proof.
  intros Hns.
  assert (keyClassOf keyType = keyClassOf (types.Underlying keyType)) as Hsame.
  { rewrite keyClassOf_Underlying.
    destruct keyType; try done. simpl in Hns. by rewrite Hns. }
  split.
  - intros (v & d & b' & Hrun).
    apply createMapLookup_error_inv in Hrun. rewrite Hsame in Hrun.
    eexists _, _. by apply createMapDelete_unsupported.
  - intros (d & b' & Hrun).
    apply createMapDelete_error_inv in Hrun. rewrite <- Hsame in Hrun.
    eexists _, _, _. by apply createMapLookup_unsupported.
Qed.

Lemma createMapLookup_createMapDelete_agree_witness :
  (isNamed interfaceKey && isBasicString (types.Underlying interfaceKey))
  = false
  /\ exists v d b',
       builder.createMapLookup (fun _ => IntegerType 32) sampleTypeString
         interfaceKey (types.Basic types.Int32) sampleMap sampleKey false
         7%Z sampleBuilder = Ok ((v, Some d), b').
Proof.
  split; [reflexivity|].
  apply (proj2 (createMapLookup_createMapDelete_agree
                  (fun _ => IntegerType 32) sampleTypeString interfaceKey
                  (types.Basic types.Int32) sampleMap sampleKey false 7%Z
                  sampleBuilder eq_refl)).
  eexists _, _. reflexivity.
Defined.

(** ** What the map operations emit *)

Lemma createMapUpdate_binary (TypeString : types.Type_ -> string)
    (keyType : types.Type_) (m key value fn : Value) (pos : Pos)
    (b : builder.state) :
  keyClassOf (types.Underlying keyType) = BinaryComparable ->
  builder.mod_ b !! "runtime.hashmapBinarySet" = Some fn ->
  let n := nextId (builder.Builder_ b) in
  let k := N.succ (N.succ n) in
  builder.createMapUpdate TypeString keyType m key value pos b
  = Ok (tt,
        builder.mkState (builder.mod_ b)
          (emit (ILifetimeEnd (slotPtr n) (slotSize (typeOf value)))
          (emit (ILifetimeEnd (slotPtr k) (slotSize (typeOf key)))
          (emit (ICall fn
                   (concat (map expansion [m; slotPtr k; slotPtr n])
                    ++ implicitArgs) "")
          (emit (IStore key (slotAlloca k (typeOf key)))
          (emit (IAlloca (typeOf key) "hashmap.key")
          (emit (IStore value (slotAlloca n (typeOf value)))
          (emit (IAlloca (typeOf value) "hashmap.value")
             (builder.Builder_ b))))))))
          (builder.diagnostics b)).
Proof.
  unfold keyClassOf, builder.createMapUpdate. intros Hc Hfn.
  destruct (isBasicString (types.Underlying keyType)); [done|].
  destruct (hashmapIsBinaryKey (types.Underlying keyType)); [|done].
  unfold builder.bind, builder.createTemporaryAlloca, builder.instr,
    builder.emitLifetimeEnd, builder.ret.
  cbn [rbind fst snd].
  by rewrite (builder_createRuntimeCall_run _ "hashmapBinarySet" _ "" fn).
Qed.

(** X11. When the module declares [runtime.hashmapStringSet] and
    [runtime.hashmapBinarySet], [createMapUpdate] returns for every key
    type and leaves the module as it is.  Among the instructions it emits
    are, in this order: the value slot and the store of the value; then,
    for a string key, a call of [hashmapStringSet] on the map, the key and
    the slot, or, for a binary key, the key slot, the store of the key, a
    call of [hashmapBinarySet] on the map and the two slots and the end of
    the key slot's lifetime; then the end of the value slot's lifetime,
    which is the last instruction emitted.  A diagnostic is recorded for
    an unsupported key, and for no other. *)
Theorem createMapUpdate_emits (TypeString : types.Type_ -> string)
    (keyType : types.Type_) (m key value stringSet binarySet : Value)
    (pos : Pos) (b : builder.state) :
  builder.mod_ b !! "runtime.hashmapStringSet" = Some stringSet ->
  builder.mod_ b !! "runtime.hashmapBinarySet" = Some binarySet ->
  let n := nextId (builder.Builder_ b) in
  let k := N.succ (N.succ n) in
  exists b' emitted,
    builder.createMapUpdate TypeString keyType m key value pos b
    = Ok (tt, b')
    /\ builder.mod_ b' = builder.mod_ b
    /\ instrs (builder.Builder_ b') = instrs (builder.Builder_ b) ++ emitted
    /\ ([IAlloca (typeOf value) "hashmap.value";
         IStore value (slotAlloca n (typeOf value))]
        ++ match keyClassOf (types.Underlying keyType) with
           | KeyString =>
               [ICall stringSet
                  (expansion m ++ expansion key ++ [slotPtr n]
                   ++ implicitArgs) ""]
           | BinaryComparable =>
               [IAlloca (typeOf key) "hashmap.key";
                IStore key (slotAlloca k (typeOf key));
                ICall binarySet
                  (expansion m ++ [slotPtr k; slotPtr n] ++ implicitArgs) "";
                ILifetimeEnd (slotPtr k) (slotSize (typeOf key))]
           | Unsupported => []
           end
        ++ [ILifetimeEnd (slotPtr n) (slotSize (typeOf value))])
       `sublist_of` emitted
    /\ last emitted
       = Some (ILifetimeEnd (slotPtr n) (slotSize (typeOf value)))
    /\ builder.diagnostics b'
       = builder.diagnostics b
         ++ match keyClassOf (types.Underlying keyType) with
            | Unsupported =>
                [builder.mkDiagnostic pos
                   (builder.unsupportedKey
                    ++ TypeString (types.Underlying keyType))%string]
            | _ => []
            end.
Proof.
  intros Hs Hb n k.
  destruct (keyClassOf (types.Underlying keyType)) eqn:Hc.
  - rewrite (createMapUpdate_string TypeString keyType m key value stringSet)
      by done.
    eexists _, _. split; [reflexivity|]. split; [done|]. split.
    { simpl. rewrite <- !app_assoc. reflexivity. }
    split; [simpl; reflexivity|].
    split; [reflexivity|]. by rewrite app_nil_r.
  - rewrite (createMapUpdate_binary TypeString keyType m key value binarySet)
      by done.
    eexists _, _. split; [reflexivity|]. split; [done|]. split.
    { simpl. rewrite <- !app_assoc. reflexivity. }
    split; [simpl; reflexivity|].
    split; [reflexivity|]. by rewrite app_nil_r.
  - unfold keyClassOf in Hc. unfold builder.createMapUpdate.
    destruct (isBasicString (types.Underlying keyType)); [done|].
    destruct (hashmapIsBinaryKey (types.Underlying keyType)); [done|].
    eexists _, _. split; [reflexivity|]. split; [done|]. split.
    { simpl. rewrite <- !app_assoc. reflexivity. }
    split; [simpl; reflexivity|]. by split.
Qed.

Lemma fullBuilder_hashmapStringSet :
  builder.mod_ fullBuilder !! "runtime.hashmapStringSet"
  = Some (runtimeFn "runtime.hashmapStringSet" VoidType).
Proof. reflexivity. Qed.

Lemma fullBuilder_hashmapBinarySet :
  builder.mod_ fullBuilder !! "runtime.hashmapBinarySet"
  = Some (runtimeFn "runtime.hashmapBinarySet" VoidType).
Proof. reflexivity. Qed.

Lemma createMapUpdate_emits_witness :
  builder.mod_ fullBuilder !! "runtime.hashmapStringSet"
  = Some (runtimeFn "runtime.hashmapStringSet" VoidType)
  /\ builder.mod_ fullBuilder !! "runtime.hashmapBinarySet"
     = Some (runtimeFn "runtime.hashmapBinarySet" VoidType)
  /\ exists b',
       builder.createMapUpdate sampleTypeString pairKey sampleMap
         pairKeyValue sampleValue 7%Z fullBuilder = Ok (tt, b')
       /\ builder.diagnostics b' = [].
Proof.
  split; [exact fullBuilder_hashmapStringSet|].
  split; [exact fullBuilder_hashmapBinarySet|].
  destruct (createMapUpdate_emits sampleTypeString pairKey sampleMap
              pairKeyValue sampleValue _ _ 7%Z fullBuilder
              fullBuilder_hashmapStringSet fullBuilder_hashmapBinarySet)
    as (b' & emitted & Hrun & _ & _ & _ & _ & Hdiag).
  exists b'. split; [exact Hrun|exact Hdiag].
Defined.





(** ** The hash of a key *)

Lemma hashmapHash_fold (data : list Byte.byte) :
  hashmapHash data = fold_left hashmapHashStep data 2166136261%Z.
Proof. reflexivity. Qed.

Lemma hashmapHash_snoc (data : list Byte.byte) (c : Byte.byte) :
  hashmapHash (data ++ [c]) = hashmapHashStep (hashmapHash data) c.
Proof. rewrite !hashmapHash_fold. by rewrite fold_left_app. Qed.

Lemma wrap32_range (z : Z) : (0 <= wrap32 z < 2 ^ 32)%Z.
Proof. unfold wrap32. apply Z.mod_pos_bound. lia. Qed.

Lemma hashmapHash_range (data : list Byte.byte) :
  (0 <= hashmapHash data < 2 ^ 32)%Z.
Proof.
  induction data as [|c data _] using rev_ind.
  - cbn. lia.
  - rewrite hashmapHash_snoc. apply wrap32_range.
Qed.

Lemma lxor_mod_pow2 (a b n : Z) :
  (0 <= n)%Z ->
  Z.lxor (a mod 2 ^ n) (b mod 2 ^ n) = (Z.lxor a b mod 2 ^ n)%Z.
Proof.
  intros Hn. apply Z.bits_inj'. intros i Hi.
  rewrite Z.lxor_spec, !Z.testbit_mod_pow2, Z.lxor_spec by lia.
  by destruct (i <? n)%Z.
Qed.

Lemma lxor_uint32 (a b : Z) :
  (0 <= a < 2 ^ 32)%Z -> (0 <= b < 2 ^ 32)%Z ->
  (0 <= Z.lxor a b < 2 ^ 32)%Z.
Proof.
  intros Ha Hb.
  rewrite <- (Z.mod_small a (2 ^ 32)), <- (Z.mod_small b (2 ^ 32)) by done.
  rewrite lxor_mod_pow2 by lia. apply Z.mod_pos_bound. lia.
Qed.

Lemma byte_uint32 (c : Byte.byte) : (0 <= Z.of_N (Byte.to_N c) < 2 ^ 32)%Z.
Proof. pose proof (Byte.to_N_bounded c). lia. Qed.

Lemma byte_to_N_inj (c1 c2 : Byte.byte) :
  Byte.to_N c1 = Byte.to_N c2 -> c1 = c2.
Proof.
  intros Heq. pose proof (Byte.of_to_N c1) as H1.
  rewrite Heq, Byte.of_to_N in H1. by injection H1.
Qed.

(** Multiplication by the FNV prime is one-to-one on 32 bits: the prime is
    odd, with inverse 899433627. *)
Lemma wrap32_mul_prime_inj (x y : Z) :
  wrap32 (x * 16777619) = wrap32 (y * 16777619) -> wrap32 x = wrap32 y.
Proof.
  unfold wrap32. intros Heq.
  assert (forall z, (z mod 2 ^ 32
                     = ((z * 16777619) mod 2 ^ 32 * 899433627) mod 2 ^ 32)%Z)
    as Hinv.
  { intros z. rewrite Z.mul_mod_idemp_l by lia.
    replace (z * 16777619 * 899433627)%Z
      with (z + z * 3513497 * 2 ^ 32)%Z by lia.
    by rewrite Z.mod_add by lia. }
  by rewrite (Hinv x), (Hinv y), Heq.
Qed.

Lemma hashmapHashStep_inj_result (h1 h2 : Z) (c : Byte.byte) :
  (0 <= h1 < 2 ^ 32)%Z -> (0 <= h2 < 2 ^ 32)%Z ->
  hashmapHashStep h1 c = hashmapHashStep h2 c -> h1 = h2.
Proof.
  intros H1 H2 Heq. apply wrap32_mul_prime_inj in Heq.
  unfold wrap32 in Heq.
  rewrite !Z.mod_small in Heq
    by (apply lxor_uint32; [done|apply byte_uint32]).
  apply (f_equal (fun z => Z.lxor z (Z.of_N (Byte.to_N c)))) in Heq.
  by rewrite !Z.lxor_assoc, !Z.lxor_nilpotent, !Z.lxor_0_r in Heq.
Qed.

Lemma hashmapHashStep_inj_byte (h : Z) (c1 c2 : Byte.byte) :
  (0 <= h < 2 ^ 32)%Z ->
  hashmapHashStep h c1 = hashmapHashStep h c2 -> c1 = c2.
Proof.
  intros Hh Heq. apply wrap32_mul_prime_inj in Heq.
  unfold wrap32 in Heq.
  rewrite !Z.mod_small in Heq
    by (apply lxor_uint32; [done|apply byte_uint32]).
  apply (f_equal (Z.lxor h)) in Heq.
  rewrite <- !Z.lxor_assoc, !Z.lxor_nilpotent, !Z.lxor_0_l in Heq.
  apply byte_to_N_inj. lia.
Qed.

(** X13. [hashmapHash] returns a [uint32] for every input, and hashes the
    bytes one after the other: the hash of [data] followed by [c] is the
    hash of [data] xor [c], times 16777619, on 32 bits. *)
Theorem hashmapHash_uint32_bytewise (data : list Byte.byte) :
  (0 <= hashmapHash data < 2 ^ 32)%Z
  /\ forall c,
       hashmapHash (data ++ [c])
       = ((Z.lxor (hashmapHash data) (Z.of_N (Byte.to_N c)) * 16777619)
          mod 2 ^ 32)%Z.
Proof.
  split; [apply hashmapHash_range|]. intros c. apply hashmapHash_snoc.
Qed.

(** X14. Two inputs that differ only in their last byte never have the
    same hash. *)
Theorem hashmapHash_last_byte (data : list Byte.byte) (c1 c2 : Byte.byte) :
  c1 <> c2 -> hashmapHash (data ++ [c1]) <> hashmapHash (data ++ [c2]).
Proof.
  intros Hne Heq. apply Hne. rewrite !hashmapHash_snoc in Heq.
  eapply hashmapHashStep_inj_byte; [apply hashmapHash_range|exact Heq].
Qed.

Lemma hashmapHash_last_byte_witness :
  Byte.x61 <> Byte.x62
  /\ hashmapHash ([Byte.x6b; Byte.x65; Byte.x79] ++ [Byte.x61])
     <> hashmapHash ([Byte.x6b; Byte.x65; Byte.x79] ++ [Byte.x62]).
Proof.
  assert (Byte.x61 <> Byte.x62) as Hne by discriminate.
  split; [exact Hne|].
  exact (hashmapHash_last_byte [Byte.x6b; Byte.x65; Byte.x79]
           Byte.x61 Byte.x62 Hne).
Defined.

(** X15. Following two inputs by the same bytes neither makes nor removes
    a collision: the hashes of [a ++ suffix] and [b ++ suffix] are equal
    exactly when the hashes of [a] and [b] are. *)
Theorem hashmapHash_common_suffix (a b suffix : list Byte.byte) :
  hashmapHash (a ++ suffix) = hashmapHash (b ++ suffix)
  <-> hashmapHash a = hashmapHash b.
Proof.
  induction suffix as [|c suffix IH] using rev_ind.
  - by rewrite !app_nil_r.
  - rewrite !app_assoc, !hashmapHash_snoc. rewrite <- IH. split.
    + apply hashmapHashStep_inj_result; apply hashmapHash_range.
    + by intros ->.
Qed.

Lemma hashmapTopHash_uint8 (hash : Z) :
  (0 <= hash < 2 ^ 32)%Z ->
  (1 <= hashmapTopHash hash <= 255)%Z
  /\ hashmapTopHash hash
     = (if (hash <? 2 ^ 24)%Z then 1 else hash / 2 ^ 24)%Z.
Proof.
  intros Hh. unfold hashmapTopHash.
  rewrite Z.shiftr_div_pow2 by lia.
  assert (0 <= hash / 2 ^ 24 < 2 ^ 8)%Z as Htop.
  { split; [apply Z.div_pos; lia|apply Z.div_lt_upper_bound; lia]. }
  rewrite (Z.mod_small (hash / 2 ^ 24)) by done.
  destruct (Z.ltb_spec hash (2 ^ 24)) as [Hlt|Hge].
  - rewrite Z.div_small by lia.
    change ((0 + 1) mod 2 ^ 8)%Z with 1%Z. simpl. lia.
  - assert (1 <= hash / 2 ^ 24)%Z by (apply Z.div_le_lower_bound; lia).
    destruct (Z.ltb_spec (hash / 2 ^ 24) 1); lia.
Qed.

(** X16. The top hash of the hash of any key is a [uint8] between 1 and
    255, never the 0 that marks an empty slot: it is 1 when the hash is
    below [2^24] and the top byte of the hash otherwise. *)
Theorem hashmapTopHash_of_hashmapHash (data : list Byte.byte) :
  (1 <= hashmapTopHash (hashmapHash data) <= 255)%Z
  /\ hashmapTopHash (hashmapHash data)
     = (if (hashmapHash data <? 2 ^ 24)%Z then 1
        else hashmapHash data / 2 ^ 24)%Z.
Proof. apply hashmapTopHash_uint8, hashmapHash_range. Qed.

Example hashmapHash_vectors :
  hashmapHash [] = 2166136261%Z
  /\ hashmapHash [Byte.x61] = 3826002220%Z
  /\ hashmapHash [Byte.x66; Byte.x6f; Byte.x6f; Byte.x62; Byte.x61; Byte.x72]
     = 3214735720%Z.
Proof. repeat split; reflexivity. Qed.

(** ** What [createMapDelete] emits *)

Lemma createMapDelete_binary (TypeString : types.Type_ -> string)
    (keyType : types.Type_) (m key fn : Value) (pos : Pos)
    (b : builder.state) :
  keyClassOf (types.Underlying keyType) = BinaryComparable ->
  builder.mod_ b !! "runtime.hashmapBinaryDelete" = Some fn ->
  let n := nextId (builder.Builder_ b) in
  builder.createMapDelete TypeString keyType m key pos b
  = Ok (None,
        builder.mkState (builder.mod_ b)
          (emit (ILifetimeEnd (slotPtr n) (slotSize (typeOf key)))
          (emit (ICall fn
                   (concat (map expansion [m; slotPtr n]) ++ implicitArgs) "")
          (emit (IStore key (slotAlloca n (typeOf key)))
          (emit (IAlloca (typeOf key) "hashmap.key")
             (builder.Builder_ b)))))
          (builder.diagnostics b)).
Proof.
  unfold keyClassOf, builder.createMapDelete. intros Hc Hfn.
  destruct (isBasicString (types.Underlying keyType)); [done|].
  destruct (hashmapIsBinaryKey (types.Underlying keyType)); [|done].
  unfold builder.bind, builder.createTemporaryAlloca, builder.instr,
    builder.emitLifetimeEnd, builder.ret.
  cbn [rbind fst snd].
  by rewrite (builder_createRuntimeCall_run _ "hashmapBinaryDelete" _ "" fn).
Qed.

(** X17. When the module declares [runtime.hashmapStringDelete] and
    [runtime.hashmapBinaryDelete], [createMapDelete] returns for every key
    type and never records a diagnostic.  For a string key the last
    instruction it emits is the call of [hashmapStringDelete] on the map
    and the key, and it returns no error.  For a binary key it emits, in
    this order, the key slot, the store of the key, the call of
    [hashmapBinaryDelete] on the map and the slot, and, last of all, the
    end of the slot's lifetime, and it returns no error.  For an
    unsupported key it emits nothing and returns the diagnostic. *)
Theorem createMapDelete_emits (TypeString : types.Type_ -> string)
    (keyType : types.Type_) (m key stringDelete binaryDelete : Value)
    (pos : Pos) (b : builder.state) :
  builder.mod_ b !! "runtime.hashmapStringDelete" = Some stringDelete ->
  builder.mod_ b !! "runtime.hashmapBinaryDelete" = Some binaryDelete ->
  let n := nextId (builder.Builder_ b) in
  let expected :=
    match keyClassOf (types.Underlying keyType) with
    | KeyString =>
        [ICall stringDelete
           (expansion m ++ expansion key ++ implicitArgs) ""]
    | BinaryComparable =>
        [IAlloca (typeOf key) "hashmap.key";
         IStore key (slotAlloca n (typeOf key));
         ICall binaryDelete (expansion m ++ [slotPtr n] ++ implicitArgs) "";
         ILifetimeEnd (slotPtr n) (slotSize (typeOf key))]
    | Unsupported => []
    end in
  exists b' emitted,
    builder.createMapDelete TypeString keyType m key pos b
    = Ok (match keyClassOf (types.Underlying keyType) with
          | Unsupported =>
              Some (builder.mkDiagnostic pos
                      (builder.unsupportedKey
                       ++ TypeString (types.Underlying keyType))%string)
          | _ => None
          end, b')
    /\ builder.mod_ b' = builder.mod_ b
    /\ builder.diagnostics b' = builder.diagnostics b
    /\ instrs (builder.Builder_ b') = instrs (builder.Builder_ b) ++ emitted
    /\ expected `sublist_of` emitted
    /\ last emitted = last expected
    /\ match keyClassOf (types.Underlying keyType) with
       | Unsupported => emitted = []
       | _ => True
       end.
Proof.
  intros Hs Hb n expected. subst expected.
  destruct (keyClassOf (types.Underlying keyType)) eqn:Hc.
  - rewrite (createMapDelete_string TypeString keyType m key stringDelete)
      by done.
    eexists _, [_]. split; [reflexivity|]. split; [done|]. split; [done|].
    split; [reflexivity|].
    simpl. rewrite ?app_nil_r, <- ?app_assoc. by repeat split.
  - rewrite (createMapDelete_binary TypeString keyType m key binaryDelete)
      by done.
    eexists _, _. split; [reflexivity|]. split; [done|]. split; [done|].
    split; [simpl; rewrite <- !app_assoc; reflexivity|].
    simpl. rewrite ?app_nil_r, <- ?app_assoc. by repeat split.
  - rewrite createMapDelete_unsupported by done.
    exists b, []. split; [reflexivity|]. split; [done|]. split; [done|].
    split; [by rewrite app_nil_r|]. by repeat split.
Qed.

Lemma fullBuilder_hashmapStringDelete :
  builder.mod_ fullBuilder !! "runtime.hashmapStringDelete"
  = Some (runtimeFn "runtime.hashmapStringDelete" VoidType).
Proof. reflexivity. Qed.

Lemma fullBuilder_hashmapBinaryDelete :
  builder.mod_ fullBuilder !! "runtime.hashmapBinaryDelete"
  = Some (runtimeFn "runtime.hashmapBinaryDelete" VoidType).
Proof. reflexivity. Qed.

Lemma createMapDelete_emits_witness :
  builder.mod_ fullBuilder !! "runtime.hashmapStringDelete"
  = Some (runtimeFn "runtime.hashmapStringDelete" VoidType)
  /\ builder.mod_ fullBuilder !! "runtime.hashmapBinaryDelete"
     = Some (runtimeFn "runtime.hashmapBinaryDelete" VoidType)
  /\ exists b',
       builder.createMapDelete sampleTypeString pairKey sampleMap
         pairKeyValue 7%Z fullBuilder = Ok (None, b')
       /\ builder.diagnostics b' = [].
Proof.
  split; [exact fullBuilder_hashmapStringDelete|].
  split; [exact fullBuilder_hashmapBinaryDelete|].
  destruct (createMapDelete_emits sampleTypeString pairKey sampleMap
              pairKeyValue _ _ 7%Z fullBuilder
              fullBuilder_hashmapStringDelete fullBuilder_hashmapBinaryDelete)
    as (b' & emitted & Hrun & _ & Hdiag & _).
  exists b'. split; [exact Hrun|exact Hdiag].
Defined.
